(** * Inventory ledger and stock projection of [inventory_system.py]

    A shallow embedding of [InventoryManager] (and of the parts of
    [DatabaseManager] it goes through) over an explicit model of the single
    SQLite connection the program keeps: the tables, the transaction that is
    open on the connection, and the statements the Python code sends to it.

    - Python [int] is [Z]; the arithmetic the code does on quantities is
      unbounded.
    - A table whose rows the code reaches through their primary key is a
      [gmap] from the key; the two tables the code scans, appends to and
      updates by a WHERE clause are lists of rows in rowid order.
    - The schema file [inventory_schema.sql] is not part of the sources.  What
      the storage engine refuses (constraints of the schema, values it cannot
      bind, input/output failure) is a parameter of every operation: the
      field [raises] of the environment [Env]. *)

From Stdlib Require Import ZArith String List Lia OrderedTypeEx.
From stdpp Require Import base option list gmap sorting strings.

Local Open Scope string_scope.
Local Open Scope Z_scope.

(** ** Data classes and table rows *)

(** [@dataclass InventoryTransaction]. *)
Record InventoryTransaction := mkInventoryTransaction {
  product_id : Z;
  location_id : Z;
  transaction_type_id : Z;
  quantity : Z;
  reference_number : option string;
  notes : option string;
  created_by : option string;
  transaction_id : option Z;
  transaction_date : option string
}.

(** The columns of [products] and [transaction_types] the code reads. *)
Record ProductRow := mkProductRow {
  p_name : string;
  p_sku : string
}.

Record TransactionTypeRow := mkTransactionTypeRow {
  tt_name : string;
  affects_inventory : Z
}.

(** A row of [inventory_transactions], with the columns the INSERT of
    [record_transaction] lists and the key the engine assigns. *)
Record LedgerRow := mkLedgerRow {
  t_transaction_id : Z;
  t_product_id : Z;
  t_location_id : Z;
  t_transaction_type_id : Z;
  t_quantity : Z;
  t_transaction_date : string;
  t_reference_number : option string;
  t_notes : option string;
  t_created_by : option string
}.

(** A row of [inventory].  [None] in one of the two time columns means that no
    statement of the program has given the column a value (it holds whatever
    the schema defaults to). *)
Record InventoryRow := mkInventoryRow {
  inventory_id : Z;
  i_product_id : Z;
  i_location_id : Z;
  i_quantity : Z;
  last_counted_at : option string;
  updated_at : option string
}.

Record Tables := mkTables {
  products : gmap Z ProductRow;
  locations : gmap Z string;
  transaction_types : gmap Z TransactionTypeRow;
  inventory_transactions : list LedgerRow;
  inventory : list InventoryRow
}.

(** The connection [DatabaseManager.conn]: what is committed, and the working
    copy of the transaction that is open on it, if one is. *)
Record Connection := mkConnection {
  durable : Tables;
  pending : option Tables
}.

(** What a statement executed on the connection sees. *)
Definition view (c : Connection) : Tables :=
  match pending c with
  | Some t => t
  | None => durable c
  end.

(** ** Statements *)

(** The statements [InventoryManager] sends, with their bound parameters. *)
Inductive Stmt :=
| BEGIN_TRANSACTION
| SELECT_affects_inventory (type_id : Z)
| INSERT_inventory_transactions (params : InventoryTransaction) (date : string)
| SELECT_inventory (p l : Z)
| UPDATE_inventory (new_quantity p l : Z)
| INSERT_inventory (p l change : Z)
| COMMIT
| SELECT_quantity (p l : Z)
| UPDATE_inventory_counted (new_quantity : Z) (counted_at : string) (p l : Z)
| INSERT_inventory_counted (p l new_quantity : Z) (counted_at : string)
| SELECT_history (p l : option Z) (start_date end_date : option string)
                 (limit : Z).

(** What the program takes from outside: the two clocks
    ([datetime.datetime.now()] formatted by [strftime], and SQL's
    CURRENT_TIMESTAMP) and the statements the engine refuses in a given state
    of the tables. *)
Record Env := mkEnv {
  now : string;
  CURRENT_TIMESTAMP : string;
  raises : Tables -> Stmt -> bool
}.

(** ** Exceptions and the state-and-exception monad *)

Inductive exn :=
| ValueError (type_id : Z)      (* "Invalid transaction type ID: ..." *)
| sqlite3_Error (s : Stmt).     (* raised by the engine while executing s *)

Definition M (S A : Type) : Type := S -> (exn + A) * S.

Definition ret {S A} (a : A) : M S A := fun s => (inr a, s).

Definition raise {S A} (e : exn) : M S A := fun s => (inl e, s).

Definition bind {S A B} (m : M S A) (k : A -> M S B) : M S B :=
  fun s =>
    match m s with
    | (inl e, s') => (inl e, s')
    | (inr a, s') => k a s'
    end.

(** [try: body / except Exception as e: handler e]. *)
Definition try_except {S A} (body : M S A) (handler : exn -> M S A) : M S A :=
  fun s =>
    match body s with
    | (inl e, s') => handler e s'
    | (inr a, s') => (inr a, s')
    end.

Declare Scope db_scope.
Delimit Scope db_scope with db.
Notation "x <~ m ;; k" := (bind m (fun x => k))
  (at level 100, m at next level, right associativity) : db_scope.
Notation "m ;;; k" := (bind m (fun _ => k))
  (at level 100, right associativity) : db_scope.
Local Open Scope db_scope.

(** ** The connection *)

(** [cursor.execute("BEGIN TRANSACTION")]: refused when a transaction is
    already open on the connection. *)
Definition execute_begin (E : Env) : M Connection unit :=
  fun c =>
    match pending c with
    | Some _ => (inl (sqlite3_Error BEGIN_TRANSACTION), c)
    | None =>
        if raises E (durable c) BEGIN_TRANSACTION
        then (inl (sqlite3_Error BEGIN_TRANSACTION), c)
        else (inr tt, mkConnection (durable c) (Some (durable c)))
    end.

(** [cursor.execute] of a SELECT, followed by the fetch. *)
Definition execute_select {A} (E : Env) (s : Stmt) (rows : Tables -> A)
  : M Connection A :=
  fun c =>
    if raises E (view c) s then (inl (sqlite3_Error s), c)
    else (inr (rows (view c)), c).

(** [cursor.execute] of an INSERT or UPDATE.  The sqlite3 module opens a
    transaction before the statement when none is open; the statement then
    either raises or changes the working copy. *)
Definition execute_dml {A} (E : Env) (s : Stmt)
    (effect : Tables -> A * Tables) : M Connection A :=
  fun c =>
    let t := view c in
    if raises E t s
    then (inl (sqlite3_Error s), mkConnection (durable c) (Some t))
    else let '(a, t') := effect t in
         (inr a, mkConnection (durable c) (Some t')).

(** [conn.commit()]: nothing to do without an open transaction; a commit that
    raises leaves the transaction open. *)
Definition commit (E : Env) : M Connection unit :=
  fun c =>
    match pending c with
    | None => (inr tt, c)
    | Some t =>
        if raises E t COMMIT then (inl (sqlite3_Error COMMIT), c)
        else (inr tt, mkConnection t None)
    end.

(** [conn.rollback()]. *)
Definition rollback : M Connection unit :=
  fun c => (inr tt, mkConnection (durable c) None).

(** ** DatabaseManager *)

(** [execute_query]: the rows of a SELECT; an exception is logged and raised
    again, the connection is left as it is. *)
Definition execute_query {A} (E : Env) (s : Stmt) (rows : Tables -> A)
  : M Connection A :=
  try_except (execute_select E s rows) (fun e => raise e).

(** [execute_insert]: execute, commit, return [lastrowid]; on an exception
    roll back and raise again. *)
Definition execute_insert (E : Env) (s : Stmt) (effect : Tables -> Z * Tables)
  : M Connection Z :=
  try_except
    (lastrowid <~ execute_dml E s effect ;;
     commit E ;;;
     ret lastrowid)
    (fun e => rollback ;;; raise e).

(** [execute_update]: the same, returning [rowcount]. *)
Definition execute_update (E : Env) (s : Stmt) (effect : Tables -> Z * Tables)
  : M Connection Z :=
  try_except
    (rowcount <~ execute_dml E s effect ;;
     commit E ;;;
     ret rowcount)
    (fun e => rollback ;;; raise e).

(** ** What the statements do to the tables *)

Definition set_inventory_transactions (rows : list LedgerRow) (t : Tables)
  : Tables :=
  mkTables (products t) (locations t) (transaction_types t) rows (inventory t).

Definition set_inventory (rows : list InventoryRow) (t : Tables) : Tables :=
  mkTables (products t) (locations t) (transaction_types t)
           (inventory_transactions t) rows.

(** The integer primary key of a new row: one more than the largest in the
    table, 1 in an empty table. *)
Definition next_rowid (ids : list Z) : Z := 1 + fold_right Z.max 0 ids.

(** [WHERE product_id = ? AND location_id = ?] on [inventory]. *)
Definition at_pair (p l : Z) (r : InventoryRow) : bool :=
  (i_product_id r =? p) && (i_location_id r =? l).

(** [INSERT INTO inventory_transactions (...) VALUES (...)]; yields
    [cursor.lastrowid]. *)
Definition insert_inventory_transactions (tx : InventoryTransaction)
    (date : string) (t : Tables) : Z * Tables :=
  let id := next_rowid (map t_transaction_id (inventory_transactions t)) in
  let row := mkLedgerRow id (product_id tx) (location_id tx)
               (transaction_type_id tx) (quantity tx) date
               (reference_number tx) (notes tx) (created_by tx) in
  (id, set_inventory_transactions (inventory_transactions t ++ [row]) t).

(** [SELECT inventory_id, quantity FROM inventory WHERE ...] and
    [fetchone()]. *)
Definition select_inventory (p l : Z) (t : Tables) : option InventoryRow :=
  find (at_pair p l) (inventory t).

(** [UPDATE inventory SET quantity = ?, updated_at = CURRENT_TIMESTAMP
    WHERE ...]: every row the WHERE clause selects; yields the row count. *)
Definition update_inventory (E : Env) (new_quantity p l : Z) (t : Tables)
  : Z * Tables :=
  (Z.of_nat (length (List.filter (at_pair p l) (inventory t))),
   set_inventory
     (map (fun r =>
             if at_pair p l r
             then mkInventoryRow (inventory_id r) (i_product_id r)
                    (i_location_id r) new_quantity (last_counted_at r)
                    (Some (CURRENT_TIMESTAMP E))
             else r)
          (inventory t)) t).

(** [INSERT INTO inventory (product_id, location_id, quantity) VALUES
    (?, ?, ?)]. *)
Definition insert_inventory (p l change : Z) (t : Tables) : Z * Tables :=
  let id := next_rowid (map inventory_id (inventory t)) in
  (id, set_inventory
         (inventory t ++ [mkInventoryRow id p l change None None]) t).

(** [UPDATE inventory SET quantity = ?, last_counted_at = ?, updated_at =
    CURRENT_TIMESTAMP WHERE ...]. *)
Definition update_inventory_counted (E : Env) (new_quantity : Z)
    (counted_at : string) (p l : Z) (t : Tables) : Z * Tables :=
  (Z.of_nat (length (List.filter (at_pair p l) (inventory t))),
   set_inventory
     (map (fun r =>
             if at_pair p l r
             then mkInventoryRow (inventory_id r) (i_product_id r)
                    (i_location_id r) new_quantity (Some counted_at)
                    (Some (CURRENT_TIMESTAMP E))
             else r)
          (inventory t)) t).

(** [INSERT INTO inventory (product_id, location_id, quantity,
    last_counted_at) VALUES (?, ?, ?, ?)]. *)
Definition insert_inventory_counted (p l new_quantity : Z)
    (counted_at : string) (t : Tables) : Z * Tables :=
  let id := next_rowid (map inventory_id (inventory t)) in
  (id, set_inventory
         (inventory t
            ++ [mkInventoryRow id p l new_quantity (Some counted_at) None]) t).

(** [SELECT quantity FROM inventory WHERE product_id = ? AND location_id = ?]:
    the quantities of the selected rows, in rowid order. *)
Definition select_quantity (p l : Z) (t : Tables) : list Z :=
  map i_quantity (List.filter (at_pair p l) (inventory t)).

(** ** InventoryManager *)

(** [get_product_quantity]: [results[0]["quantity"] if results else 0]. *)
Definition get_product_quantity (E : Env) (product_id location_id : Z)
  : M Connection Z :=
  results <~ execute_query E (SELECT_quantity product_id location_id)
               (select_quantity product_id location_id) ;;
  match results with
  | q :: _ => ret q
  | [] => ret 0
  end.

(** [update_inventory_quantity]. *)
Definition update_inventory_quantity (E : Env) (product_id location_id : Z)
    (new_quantity : Z) (counted_at : option string) : M Connection bool :=
  current_quantity <~ get_product_quantity E product_id location_id ;;
  let counted_at :=
    match counted_at with
    | None => now E
    | Some s => s
    end in
  if 0 <? current_quantity
  then
    try_except
      (execute_update E
         (UPDATE_inventory_counted new_quantity counted_at
            product_id location_id)
         (update_inventory_counted E new_quantity counted_at
            product_id location_id) ;;;
       ret true)
      (fun e => raise e)
  else
    try_except
      (execute_insert E
         (INSERT_inventory_counted product_id location_id new_quantity
            counted_at)
         (insert_inventory_counted product_id location_id new_quantity
            counted_at) ;;;
       ret true)
      (fun e => raise e).

(** The state [record_transaction] works on: the connection and the caller's
    [InventoryTransaction] object, which the method may assign to. *)
Definition World : Type := Connection * InventoryTransaction.

Definition on_conn {A} (m : M Connection A) : M World A :=
  fun w => let '(r, c') := m (fst w) in (r, (c', snd w)).

Definition the_transaction : M World InventoryTransaction :=
  fun w => (inr (snd w), w).

(** [transaction.transaction_date = d]. *)
Definition assign_transaction_date (d : string) : M World unit :=
  fun w =>
    let tx := snd w in
    (inr tt,
     (fst w,
      mkInventoryTransaction (product_id tx) (location_id tx)
        (transaction_type_id tx) (quantity tx) (reference_number tx)
        (notes tx) (created_by tx) (transaction_id tx) (Some d))).

(** The [try] block of [record_transaction], up to and including
    [return transaction_id]. *)
Definition record_transaction_try (E : Env) : M World Z :=
  on_conn (execute_begin E) ;;;
  transaction <~ the_transaction ;;
  result <~ on_conn
    (execute_select E
       (SELECT_affects_inventory (transaction_type_id transaction))
       (fun t => transaction_types t !! transaction_type_id transaction)) ;;
  match result with
  | None => raise (ValueError (transaction_type_id transaction))
  | Some row =>
      let affects_inventory := affects_inventory row in
      date <~ match transaction_date transaction with
              | None => assign_transaction_date (now E) ;;; ret (now E)
              | Some d => ret d
              end ;;
      transaction <~ the_transaction ;;
      transaction_id <~ on_conn
        (execute_dml E (INSERT_inventory_transactions transaction date)
           (insert_inventory_transactions transaction date)) ;;
      (if affects_inventory =? 0 then ret tt
       else
         let inventory_change := quantity transaction * affects_inventory in
         inventory_record <~ on_conn
           (execute_select E
              (SELECT_inventory (product_id transaction)
                 (location_id transaction))
              (select_inventory (product_id transaction)
                 (location_id transaction))) ;;
         match inventory_record with
         | Some record =>
             let new_quantity := i_quantity record + inventory_change in
             on_conn
               (execute_dml E
                  (UPDATE_inventory new_quantity (product_id transaction)
                     (location_id transaction))
                  (update_inventory E new_quantity (product_id transaction)
                     (location_id transaction))) ;;;
             ret tt
         | None =>
             on_conn
               (execute_dml E
                  (INSERT_inventory (product_id transaction)
                     (location_id transaction) inventory_change)
                  (insert_inventory (product_id transaction)
                     (location_id transaction) inventory_change)) ;;;
             ret tt
         end) ;;;
      on_conn (commit E) ;;;
      ret transaction_id
  end.

(** [record_transaction]: the [try] block, and [except Exception] rolling back
    and raising again.  The result comes with the connection and the caller's
    object as the call leaves them. *)
Definition record_transaction (E : Env) (transaction : InventoryTransaction)
    (c : Connection) : (exn + Z) * World :=
  try_except (record_transaction_try E)
    (fun e => on_conn rollback ;;; raise e)
    (c, transaction).

(** A row of the transaction history: [t.*] and the names the query joins
    in. *)
Record HistoryRow := mkHistoryRow {
  h_entry : LedgerRow;
  product_name : string;
  sku : string;
  location_name : string;
  transaction_type : string
}.

(** [FROM inventory_transactions t JOIN products p ON ... JOIN locations l
    ON ... JOIN transaction_types tt ON ...]: inner joins on primary keys. *)
Definition join_names (t : Tables) (r : LedgerRow) : option HistoryRow :=
  p ← products t !! t_product_id r;
  l ← locations t !! t_location_id r;
  tt ← transaction_types t !! t_transaction_type_id r;
  Some (mkHistoryRow r (p_name p) (p_sku p) l (tt_name tt)).

(** [WHERE 1=1] and the clauses appended for the filters that are not
    [None]; dates are compared as text. *)
Definition history_where (p l : option Z) (start_date end_date : option string)
    (h : HistoryRow) : bool :=
  match p with
  | Some p => t_product_id (h_entry h) =? p
  | None => true
  end
  && match l with
     | Some l => t_location_id (h_entry h) =? l
     | None => true
     end
  && match start_date with
     | Some d => (d <=? t_transaction_date (h_entry h))%string
     | None => true
     end
  && match end_date with
     | Some d => (t_transaction_date (h_entry h) <=? d)%string
     | None => true
     end.

(** [ORDER BY t.transaction_date DESC]. *)
Definition date_desc (x y : HistoryRow) : Prop :=
  (t_transaction_date (h_entry y) <=? t_transaction_date (h_entry x))%string
  = true.

#[global] Instance date_desc_dec : RelDecision date_desc :=
  fun x y =>
    bool_eq_dec
      (t_transaction_date (h_entry y) <=? t_transaction_date (h_entry x))%string
      true.

(** [LIMIT n]: the first [n] rows; SQLite puts no bound on the number of rows
    when [n] is negative. *)
Definition sql_limit {A} (n : Z) (rows : list A) : list A :=
  if n <? 0 then rows else take (Z.to_nat n) rows.

(** The rows of the history query.  The query fixes no order among entries
    of equal date: [merge_sort] picks one, which need not be the engine's, so
    under a LIMIT the model may keep other entries of the last date than the
    engine does.  The statements below hold for every such order. *)
Definition select_history (p l : option Z) (start_date end_date : option string)
    (limit : Z) (t : Tables) : list HistoryRow :=
  sql_limit limit
    (merge_sort date_desc
       (List.filter (history_where p l start_date end_date)
          (omap (join_names t) (inventory_transactions t)))).

(** [get_transaction_history]; a [limit] of [None] is the call that leaves the
    keyword argument out. *)
Definition get_transaction_history (E : Env) (product_id location_id : option Z)
    (start_date end_date : option string) (limit : option Z)
  : M Connection (list HistoryRow) :=
  let limit := default 100 limit in
  execute_query E
    (SELECT_history product_id location_id start_date end_date limit)
    (select_history product_id location_id start_date end_date limit).

(** ** Concrete stores for the examples *)

(** An engine that refuses nothing. *)
Definition permissive : Env :=
  mkEnv "2024-03-01 09:00:00" "2024-03-01 14:00:00" (fun _ _ => false).

(** An engine whose [inventory] table has UNIQUE (product_id, location_id). *)
Definition unique_pair : Env :=
  mkEnv "2024-03-01 09:00:00" "2024-03-01 14:00:00"
    (fun t s =>
       match s with
       | INSERT_inventory p l _ => existsb (at_pair p l) (inventory t)
       | INSERT_inventory_counted p l _ _ => existsb (at_pair p l) (inventory t)
       | _ => false
       end).

(** An engine that fails at COMMIT. *)
Definition failing_commit : Env :=
  mkEnv "2024-03-01 09:00:00" "2024-03-01 14:00:00"
    (fun _ s => match s with COMMIT => true | _ => false end).

(** The eight transaction types the command-line front end lists, with the
    effect it prints for each (Adjustment: none). *)
Definition builtin_types : gmap Z TransactionTypeRow :=
  list_to_map
    [(1, mkTransactionTypeRow "Purchase" 1);
     (2, mkTransactionTypeRow "Sale" (-1));
     (3, mkTransactionTypeRow "Adjustment" 0);
     (4, mkTransactionTypeRow "Transfer In" 1);
     (5, mkTransactionTypeRow "Transfer Out" (-1));
     (6, mkTransactionTypeRow "Return In" 1);
     (7, mkTransactionTypeRow "Return Out" (-1));
     (8, mkTransactionTypeRow "Write Off" (-1))].

(** One product, two locations, no transaction yet. *)
Definition fresh_tables : Tables :=
  mkTables
    {[ 1 := mkProductRow "Laptop Computer" "TECH-001" ]}
    (<[ 1 := "Main Warehouse" ]> {[ 2 := "Retail Store" ]})
    builtin_types [] [].

Definition fresh : Connection := mkConnection fresh_tables None.

Definition a_transaction (type_id qty : Z) (loc : Z) (date : option string)
  : InventoryTransaction :=
  mkInventoryTransaction 1 loc type_id qty None None (Some "System") None date.

(** Runs the calls one after the other on the connection; [None] as soon as
    one raises. *)
Fixpoint replay (E : Env) (txs : list InventoryTransaction) (c : Connection)
  : option Connection :=
  match txs with
  | [] => Some c
  | tx :: rest =>
      match record_transaction E tx c with
      | (inr _, (c', _)) => replay E rest c'
      | (inl _, _) => None
      end
  end.

(** ** Vocabulary of the statements below *)

(** The caller's object after [transaction.transaction_date = d]. *)
Definition with_date (tx : InventoryTransaction) (d : string)
  : InventoryTransaction :=
  mkInventoryTransaction (product_id tx) (location_id tx)
    (transaction_type_id tx) (quantity tx) (reference_number tx)
    (notes tx) (created_by tx) (transaction_id tx) (Some d).

(** The ledger entry that carries the fields of [tx]. *)
Definition ledger_row_of (id : Z) (tx : InventoryTransaction) (date : string)
  : LedgerRow :=
  mkLedgerRow id (product_id tx) (location_id tx) (transaction_type_id tx)
    (quantity tx) date (reference_number tx) (notes tx) (created_by tx).

(** The stock level of a pair as the specification words it: the quantity of
    the row of the pair when there is one, 0 when there is none. *)
Definition stock_level (t : Tables) (p l : Z) : Z :=
  match find (at_pair p l) (inventory t) with
  | Some r => i_quantity r
  | None => 0
  end.

(** The call [tx] is about the pair [(p, l)]. *)
Definition touches (p l : Z) (tx : InventoryTransaction) : bool :=
  (product_id tx =? p) && (location_id tx =? l).

(** The registry's effect sign of a transaction type (0 for an identifier the
    registry does not have). *)
Definition effect_of (types : gmap Z TransactionTypeRow) (type_id : Z) : Z :=
  match types !! type_id with
  | Some row => affects_inventory row
  | None => 0
  end.

(** The fold of the specification: the sum, over the calls that touch the
    pair, of [quantity * affects_inventory]. *)
Definition ledger_fold (types : gmap Z TransactionTypeRow) (p l : Z)
    (txs : list InventoryTransaction) : Z :=
  fold_right Z.add 0
    (map (fun tx => quantity tx * effect_of types (transaction_type_id tx))
       (List.filter (touches p l) txs)).

(** [successive c txs c']: the calls [record_transaction] of [txs], made one
    after the other from [c], all returned a transaction id and left the
    connection as [c'].  Each call has its own clock and engine behaviour. *)
Inductive successive : Connection -> list InventoryTransaction -> Connection
    -> Prop :=
| successive_nil c : successive c [] c
| successive_cons E tx id tx' c c1 txs c2 :
    record_transaction E tx c = (inr id, (c1, tx')) ->
    successive c1 txs c2 ->
    successive c (tx :: txs) c2.

(** No transaction open, no ledger entry, no stock level. *)
Definition empty_store (c : Connection) : Prop :=
  pending c = None
  /\ inventory_transactions (durable c) = []
  /\ inventory (durable c) = [].

(** What a call that returned [id] has done to the tables. *)
Definition recorded (E : Env) (tx : InventoryTransaction) (t : Tables)
    (id : Z) (t' : Tables) (tx' : InventoryTransaction) : Prop :=
  exists row,
    let date := default (now E) (transaction_date tx) in
    let p := product_id tx in
    let l := location_id tx in
    let change := quantity tx * affects_inventory row in
    transaction_types t !! transaction_type_id tx = Some row
    /\ tx' = with_date tx date
    /\ id = next_rowid (map t_transaction_id (inventory_transactions t))
    /\ products t' = products t
    /\ locations t' = locations t
    /\ transaction_types t' = transaction_types t
    /\ inventory_transactions t' =
         (inventory_transactions t ++ [ledger_row_of id tx date])%list
    /\ inventory t' =
         if affects_inventory row =? 0 then inventory t
         else match find (at_pair p l) (inventory t) with
              | Some r =>
                  inventory
                    (snd (update_inventory E (i_quantity r + change) p l t))
              | None => inventory (snd (insert_inventory p l change t))
              end.

(** The data model's key: at most one stock level per pair. *)
Definition unique_pairs (rows : list InventoryRow) : Prop :=
  forall p l, (length (List.filter (at_pair p l) rows) <= 1)%nat.

(** The call gets as far as the assignment of the date: a transaction can be
    begun, the registry can be read and has the type. *)
Definition reaches_insert (E : Env) (tx : InventoryTransaction)
    (c : Connection) : bool :=
  match pending c with
  | Some _ => false
  | None =>
      negb (raises E (durable c) BEGIN_TRANSACTION)
      && negb (raises E (durable c)
                 (SELECT_affects_inventory (transaction_type_id tx)))
      && bool_decide (is_Some (transaction_types (durable c)
                                 !! transaction_type_id tx))
  end.

(** The ledger entries the history query is about: joined with their names
    and selected by the filters, in ledger order. *)
Definition matching_history (p l : option Z) (start_date end_date : option string)
    (t : Tables) : list HistoryRow :=
  List.filter (history_where p l start_date end_date)
    (omap (join_names t) (inventory_transactions t)).

(** A store in which the stock of product 1 at location 1 was bought and sold
    again: the row of the pair is there, with quantity 0. *)
Definition sold_out : Connection :=
  mkConnection
    (mkTables (products fresh_tables) (locations fresh_tables) builtin_types
       [mkLedgerRow 1 1 1 1 10 "2024-03-01 09:00:00" None None (Some "System");
        mkLedgerRow 2 1 1 2 10 "2024-03-01 09:00:00" None None (Some "System")]
       [mkInventoryRow 1 1 1 0 None (Some "2024-03-01 14:00:00")])
    None.

(** A store with three ledger entries on three days. *)
Definition three_days : Connection :=
  mkConnection
    (mkTables (products fresh_tables) (locations fresh_tables) builtin_types
       [mkLedgerRow 1 1 1 1 10 "2024-01-02" None None (Some "System");
        mkLedgerRow 2 1 1 2 3 "2024-01-05" None None (Some "System");
        mkLedgerRow 3 1 2 4 3 "2024-01-03" None None (Some "System")]
       [mkInventoryRow 1 1 1 7 None (Some "2024-03-01 14:00:00");
        mkInventoryRow 2 1 2 3 None None])
    None.

(** ** The current-levels report *)

(** A row of the current-levels report: [i.*] and the names the query joins
    in. *)
Record LevelRow := mkLevelRow {
  lv_row : InventoryRow;
  lv_product_name : string;
  lv_sku : string;
  lv_location_name : string
}.

(** [FROM inventory i JOIN products p ON ... JOIN locations l ON ...]. *)
Definition join_level_names (t : Tables) (r : InventoryRow) : option LevelRow :=
  p ← products t !! i_product_id r;
  l ← locations t !! i_location_id r;
  Some (mkLevelRow r (p_name p) (p_sku p) l).

(** [WHERE 1=1] and the clauses appended for the filters that are not
    [None]. *)
Definition levels_where (p l : option Z) (v : LevelRow) : bool :=
  match p with
  | Some p => i_product_id (lv_row v) =? p
  | None => true
  end
  && match l with
     | Some l => i_location_id (lv_row v) =? l
     | None => true
     end.

(** [ORDER BY p.name, l.name], names compared as text. *)
Definition name_order (x y : LevelRow) : Prop :=
  match (lv_product_name x ?= lv_product_name y)%string with
  | Lt => true
  | Eq => (lv_location_name x <=? lv_location_name y)%string
  | Gt => false
  end = true.

#[global] Instance name_order_dec : RelDecision name_order :=
  fun x y =>
    bool_eq_dec
      match (lv_product_name x ?= lv_product_name y)%string with
      | Lt => true
      | Eq => (lv_location_name x <=? lv_location_name y)%string
      | Gt => false
      end
      true.

Definition select_inventory_levels (p l : option Z) (t : Tables)
  : list LevelRow :=
  merge_sort name_order
    (List.filter (levels_where p l)
       (omap (join_level_names t) (inventory t))).

(** [execute_query] for a statement that [Stmt] does not list: [refused t] is
    the exception the engine raises on the statement in the state [t] of the
    tables, if it raises one. *)
Definition execute_query_of {A} (refused : Tables -> option exn)
    (rows : Tables -> A) : M Connection A :=
  try_except
    (fun c =>
       match refused (view c) with
       | Some e => (inl e, c)
       | None => (inr (rows (view c)), c)
       end)
    (fun e => raise e).

(** [get_inventory_levels]. *)
Definition get_inventory_levels (refused : Tables -> option exn)
    (product_id location_id : option Z) : M Connection (list LevelRow) :=
  execute_query_of refused (select_inventory_levels product_id location_id).

(** ** More vocabulary *)

(** The sum, over the ledger entries of a pair, of
    [quantity * affects_inventory] of their type. *)
Definition ledger_projection (types : gmap Z TransactionTypeRow) (p l : Z)
    (rows : list LedgerRow) : Z :=
  fold_right Z.add 0
    (map (fun r => t_quantity r * effect_of types (t_transaction_type_id r))
       (List.filter
          (fun r => (t_product_id r =? p) && (t_location_id r =? l)) rows)).

(** Every stock level is the projection of the ledger. *)
Definition projection_consistent (t : Tables) : Prop :=
  forall p l,
    stock_level t p l
    = ledger_projection (transaction_types t) p l (inventory_transactions t).

(** The engine enforces UNIQUE (product_id, location_id) on [inventory]: it
    refuses the INSERT of a pair that has a row. *)
Definition enforces_unique_pair (E : Env) : Prop :=
  forall t p l q d,
    existsb (at_pair p l) (inventory t) = true ->
    raises E t (INSERT_inventory_counted p l q d) = true.

(** A stock-level row for product 7, which [products] does not have. *)
Definition orphan_level : Connection :=
  mkConnection
    (mkTables (products fresh_tables) (locations fresh_tables) builtin_types
       []
       [mkInventoryRow 1 7 1 4 None None;
        mkInventoryRow 2 1 2 3 None None;
        mkInventoryRow 3 1 1 9 None None])
    None.

(** * Properties *)

(** ** Symbolic execution of the calls *)

Ltac run_db :=
  unfold record_transaction, try_except, record_transaction_try, bind, on_conn,
    execute_begin, execute_select, execute_dml, commit, rollback,
    the_transaction, assign_transaction_date, ret, raise, view,
    select_inventory in *;
  simpl in *.

Lemma with_date_same tx d :
  transaction_date tx = Some d -> with_date tx d = tx.
Proof. destruct tx; simpl; intros ->; reflexivity. Qed.

(** Every path that raises goes through [conn.rollback()], and nothing is
    committed before. *)
Lemma record_transaction_inl E tx c e c' tx' :
  record_transaction E tx c = (inl e, (c', tx')) ->
  c' = mkConnection (durable c) None.
Proof.
  destruct c as [d p]. run_db. intros H.
  repeat (case_match; simplify_eq/=); reflexivity.
Qed.

(** A call that returns has found no transaction open, leaves none open, and
    has done to the tables what [recorded] says. *)
Lemma record_transaction_inr E tx c id c' tx' :
  record_transaction E tx c = (inr id, (c', tx')) ->
  pending c = None /\ pending c' = None
  /\ recorded E tx (durable c) id (durable c') tx'.
Proof.
  destruct c as [d p]. run_db. intros H.
  repeat (case_match; simplify_eq/=).
  all: split; [reflexivity | split; [reflexivity |]].
  all: eexists; split; [eassumption |].
  all: repeat match goal with
         | H : transaction_date _ = Some _ |- _ =>
             rewrite H; simpl; rewrite (with_date_same _ _ H)
         | H : transaction_date _ = None |- _ => rewrite H
         | H : (_ =? _) = _ |- _ => rewrite H
         | H : find _ _ = _ |- _ => rewrite H
         end; simpl.
  all: repeat split; reflexivity.
Qed.

(** With a registered type, no transaction open and an engine that executes
    every statement, the call returns. *)
Lemma record_transaction_returns E tx c row :
  pending c = None ->
  (forall t s, raises E t s = false) ->
  transaction_types (durable c) !! transaction_type_id tx = Some row ->
  exists id c',
    record_transaction E tx c
    = (inr id, (c', with_date tx (default (now E) (transaction_date tx)))).
Proof.
  destruct c as [d p]. simpl. intros -> Hq Hrow. run_db.
  repeat (first [rewrite Hq | rewrite Hrow]; simpl).
  destruct (transaction_date tx) as [d0 |] eqn:Hd; simpl;
    repeat (rewrite Hq; simpl).
  - rewrite (with_date_same _ _ Hd).
    destruct (affects_inventory row =? 0); simpl;
      repeat (rewrite Hq; simpl); [eauto |].
    destruct (find _ _); simpl; repeat (rewrite Hq; simpl); eauto.
  - destruct (affects_inventory row =? 0); simpl;
      repeat (rewrite Hq; simpl); [eauto |].
    destruct (find _ _); simpl; repeat (rewrite Hq; simpl); eauto.
Qed.

(** ** Rows and pairs *)

Lemma at_pair_true p l r :
  at_pair p l r = true <-> i_product_id r = p /\ i_location_id r = l.
Proof. unfold at_pair. rewrite andb_true_iff, !Z.eqb_eq. tauto. Qed.

Lemma touches_true p l tx :
  touches p l tx = true <-> product_id tx = p /\ location_id tx = l.
Proof. unfold touches. rewrite andb_true_iff, !Z.eqb_eq. tauto. Qed.

Lemma find_snoc {A} (P : A -> bool) (rows : list A) (x : A) :
  find P (rows ++ [x])
  = match find P rows with
    | Some y => Some y
    | None => if P x then Some x else None
    end.
Proof.
  induction rows as [| y rows IH]; simpl.
  - reflexivity.
  - destruct (P y); [reflexivity | exact IH].
Qed.

(** An update that keeps the key of every row finds the image of the row that
    was found before. *)
Lemma find_map_keeping {A} (P : A -> bool) (f : A -> A) (rows : list A) :
  (forall x, P (f x) = P x) ->
  find P (map f rows) = option_map f (find P rows).
Proof.
  intros Hf. induction rows as [| y rows IH]; simpl.
  - reflexivity.
  - rewrite Hf. destruct (P y); [reflexivity | exact IH].
Qed.

Lemma find_some_holds {A} (P : A -> bool) (rows : list A) (x : A) :
  find P rows = Some x -> P x = true.
Proof. intros H. apply find_some in H. tauto. Qed.

(** [results[0]] of the quantity query is the row [find] stops at. *)
Lemma select_quantity_head p l t :
  match select_quantity p l t with
  | q :: _ => q
  | [] => 0
  end = stock_level t p l.
Proof.
  unfold select_quantity, stock_level.
  induction (inventory t) as [| r rows IH]; simpl.
  - reflexivity.
  - destruct (at_pair p l r); [reflexivity | exact IH].
Qed.

(** The stock level of every pair after a call that returned: the level
    before, plus [quantity * affects_inventory] at the pair of the call. *)
Lemma recorded_stock_level E tx t id t' tx' p l :
  recorded E tx t id t' tx' ->
  stock_level t' p l
  = stock_level t p l
    + (if touches p l tx
       then quantity tx * effect_of (transaction_types t)
                            (transaction_type_id tx)
       else 0).
Proof.
  intros (row & Hrow & _ & _ & _ & _ & _ & _ & Hinv).
  unfold stock_level, effect_of. rewrite Hrow, Hinv. clear Hinv.
  destruct (affects_inventory row =? 0) eqn:Hz.
  { apply Z.eqb_eq in Hz. rewrite Hz. destruct (touches p l tx); lia. }
  destruct (find (at_pair (product_id tx) (location_id tx)) (inventory t))
    as [r |] eqn:Hr; simpl.
  - rewrite find_map_keeping
      by (intros x; destruct (at_pair _ _ x) eqn:Hx; [| reflexivity];
          unfold at_pair; reflexivity).
    destruct (touches p l tx) eqn:Ht.
    + apply touches_true in Ht as [<- <-]. rewrite Hr. simpl.
      rewrite (find_some_holds _ _ _ Hr). simpl. reflexivity.
    + destruct (find (at_pair p l) (inventory t)) as [r' |] eqn:Hr'; simpl.
      * destruct (at_pair (product_id tx) (location_id tx) r') eqn:Hx.
        -- apply find_some_holds in Hr'.
           apply at_pair_true in Hx as [Hx1 Hx2].
           apply at_pair_true in Hr' as [Hy1 Hy2].
           assert (touches p l tx = true) by (apply touches_true; lia).
           congruence.
        -- lia.
      * reflexivity.
  - rewrite find_snoc.
    destruct (touches p l tx) eqn:Ht.
    + apply touches_true in Ht as [<- <-]. rewrite Hr.
      unfold at_pair; simpl. rewrite !Z.eqb_refl. simpl. lia.
    + destruct (find (at_pair p l) (inventory t)) as [r' |]; [lia |].
      unfold at_pair, touches in *; simpl. rewrite Ht. reflexivity.
Qed.

Lemma stock_level_no_row t p l :
  (forall r, In r (inventory t) -> at_pair p l r = false) ->
  stock_level t p l = 0.
Proof.
  intros Hno. unfold stock_level.
  destruct (find (at_pair p l) (inventory t)) as [r |] eqn:Hr; [| reflexivity].
  apply find_some in Hr as [Hin Hp]. rewrite (Hno r Hin) in Hp. discriminate.
Qed.

Lemma filter_at_most_one {A} (P : A -> bool) (rows : list A) (x y : A) :
  (length (List.filter P rows) <= 1)%nat ->
  In x rows -> P x = true -> In y rows -> P y = true -> x = y.
Proof.
  induction rows as [| z rows IH]; simpl; [tauto |].
  intros Hlen Hx Px Hy Py.
  destruct (P z) eqn:Pz; simpl in Hlen.
  - assert (Hnil : List.filter P rows = [])
      by (destruct (List.filter P rows); [reflexivity | simpl in Hlen; lia]).
    assert (Hout : forall w, In w rows -> P w = true -> False).
    { intros w Hw Pw.
      assert (Hin : In w (List.filter P rows)) by (apply filter_In; tauto).
      rewrite Hnil in Hin. exact Hin. }
    destruct Hx as [-> | Hx]; destruct Hy as [-> | Hy];
      try reflexivity; exfalso; eauto.
  - destruct Hx as [-> | Hx]; [congruence |].
    destruct Hy as [-> | Hy]; [congruence |].
    apply IH; assumption.
Qed.

(** Under the key of the data model, the stock level is the quantity of the
    one row of the pair. *)
Lemma stock_level_row t p l r :
  unique_pairs (inventory t) ->
  In r (inventory t) -> at_pair p l r = true ->
  stock_level t p l = i_quantity r.
Proof.
  intros Hu Hin Hp. unfold stock_level.
  destruct (find (at_pair p l) (inventory t)) as [r' |] eqn:Hr.
  - apply find_some in Hr as [Hin' Hp'].
    rewrite (filter_at_most_one _ _ r' r (Hu p l) Hin' Hp' Hin Hp).
    reflexivity.
  - rewrite (find_none _ _ Hr r Hin) in Hp. discriminate.
Qed.

(** ** Reading the stock level *)

(** What a call of [get_product_quantity] evaluates to. *)
Lemma get_product_quantity_run E p l c :
  get_product_quantity E p l c
  = (if raises E (view c) (SELECT_quantity p l)
     then inl (sqlite3_Error (SELECT_quantity p l))
     else inr (stock_level (view c) p l),
     c).
Proof.
  unfold get_product_quantity, execute_query, try_except, execute_select,
    bind, raise, ret.
  destruct (raises E (view c) (SELECT_quantity p l)); [reflexivity |].
  rewrite <- select_quantity_head.
  destruct (select_quantity p l (view c)); reflexivity.
Qed.

Lemma at_pair_false p l r :
  at_pair p l r = false <-> i_product_id r <> p \/ i_location_id r <> l.
Proof.
  unfold at_pair. rewrite andb_false_iff, !Z.eqb_neq. tauto.
Qed.

(** [find] stops at the first row that passes. *)
Lemma find_first {A} (P : A -> bool) (before after : list A) (r : A) :
  (forall x, In x before -> P x = false) -> P r = true ->
  find P (before ++ r :: after) = Some r.
Proof.
  intros Hb Hr. induction before as [| x before IH]; simpl.
  - rewrite Hr. reflexivity.
  - rewrite (Hb x) by (left; reflexivity).
    apply IH. intros y Hy. apply Hb. right. exact Hy.
Qed.

(** C7. [get_product_quantity] never changes the connection (no row is
    created, nothing is written), and raises only what the engine raised on
    its query.  When the query executes, it returns: the quantity of the
    first row of [inventory] whose [product_id] is [p] and whose
    [location_id] is [l]; in particular the quantity of the row of the pair
    when that row is the only one with these two ids (the key of the data
    model); and 0 when no row has these two ids. *)
Theorem get_product_quantity_reads E p l c :
  snd (get_product_quantity E p l c) = c
  /\ (raises E (view c) (SELECT_quantity p l) = true ->
      fst (get_product_quantity E p l c)
      = inl (sqlite3_Error (SELECT_quantity p l)))
  /\ (raises E (view c) (SELECT_quantity p l) = false ->
      (forall before r after,
         inventory (view c) = (before ++ r :: after)%list ->
         i_product_id r = p -> i_location_id r = l ->
         (forall x, In x before ->
                    i_product_id x <> p \/ i_location_id x <> l) ->
         fst (get_product_quantity E p l c) = inr (i_quantity r))
      /\ (forall r,
            In r (inventory (view c)) ->
            i_product_id r = p -> i_location_id r = l ->
            (forall x, In x (inventory (view c)) ->
                       i_product_id x = p -> i_location_id x = l -> x = r) ->
            fst (get_product_quantity E p l c) = inr (i_quantity r))
      /\ ((forall x, In x (inventory (view c)) ->
                     i_product_id x <> p \/ i_location_id x <> l) ->
          fst (get_product_quantity E p l c) = inr 0)).
Proof.
  rewrite get_product_quantity_run.
  split; [reflexivity |]. split; [intros ->; reflexivity |].
  intros ->. simpl. unfold stock_level. split; [| split].
  - intros before r after Hinv Hp Hl Hbefore. rewrite Hinv.
    rewrite (find_first (at_pair p l) before after r).
    + reflexivity.
    + intros x Hx. apply at_pair_false. exact (Hbefore x Hx).
    + apply at_pair_true. split; assumption.
  - intros r Hin Hp Hl Honly.
    destruct (find (at_pair p l) (inventory (view c))) as [r' |] eqn:Hr.
    + apply find_some in Hr as [Hin' Hat].
      apply at_pair_true in Hat as [Hp' Hl'].
      rewrite (Honly r' Hin' Hp' Hl'). reflexivity.
    + assert (Hat : at_pair p l r = true)
        by (apply at_pair_true; split; assumption).
      rewrite (find_none _ _ Hr r Hin) in Hat. discriminate.
  - intros Hno.
    destruct (find (at_pair p l) (inventory (view c))) as [r' |] eqn:Hr;
      [| reflexivity].
    apply find_some in Hr as [Hin' Hat].
    apply at_pair_true in Hat as [Hp' Hl'].
    destruct (Hno r' Hin'); contradiction.
Qed.

(** Location 2 of [three_days]: the second row, quantity 3, is the first and
    only row of the pair. *)
Lemma get_product_quantity_reads_witness :
  fst (get_product_quantity permissive 1 2 three_days) = inr 3
  /\ snd (get_product_quantity permissive 1 2 three_days) = three_days.
Proof.
  destruct (get_product_quantity_reads permissive 1 2 three_days)
    as (Hsame & _ & Hread).
  split; [| exact Hsame].
  destruct (Hread eq_refl) as (Hfirst & _ & _).
  apply (Hfirst
           [mkInventoryRow 1 1 1 7 None (Some "2024-03-01 14:00:00")]
           (mkInventoryRow 2 1 2 3 None None) []).
  - reflexivity.
  - reflexivity.
  - reflexivity.
  - intros x [<- | []]. right. simpl. lia.
Defined.

(** ** The projection is a fold of the calls *)

Lemma ledger_fold_cons types p l tx txs :
  ledger_fold types p l (tx :: txs)
  = (if touches p l tx
     then quantity tx * effect_of types (transaction_type_id tx)
     else 0)
    + ledger_fold types p l txs.
Proof.
  unfold ledger_fold. simpl. destruct (touches p l tx); reflexivity.
Qed.

Lemma successive_stock_level c txs c' :
  successive c txs c' ->
  pending c = None ->
  pending c' = None
  /\ transaction_types (durable c') = transaction_types (durable c)
  /\ forall p l,
       stock_level (durable c') p l
       = stock_level (durable c) p l
         + ledger_fold (transaction_types (durable c)) p l txs.
Proof.
  induction 1 as [c | E tx id tx' c c1 txs c2 Hcall Hrest IH]; intros Hp.
  - repeat split; [assumption |]. intros p l. unfold ledger_fold. simpl. lia.
  - apply record_transaction_inr in Hcall as (_ & Hp1 & Hrec).
    destruct (IH Hp1) as (Hp2 & Hty & Hst).
    pose proof Hrec as (row & _ & _ & _ & _ & _ & Hty1 & _).
    repeat split; [assumption | congruence |].
    intros p l. rewrite Hst, Hty1, ledger_fold_cons.
    rewrite (recorded_stock_level _ _ _ _ _ _ p l Hrec). lia.
Qed.

(** C1. After any sequence of [record_transaction] calls that all returned,
    made from an empty store, [get_product_quantity] for a pair is the sum,
    over the calls that touch the pair, of [quantity * affects_inventory] of
    their type.  The sum is taken in [Z]: nothing keeps it from being
    negative. *)
Theorem stock_is_fold_of_calls c txs c' E p l :
  empty_store c ->
  successive c txs c' ->
  raises E (view c') (SELECT_quantity p l) = false ->
  get_product_quantity E p l c'
  = (inr (ledger_fold (transaction_types (durable c)) p l txs), c').
Proof.
  intros (Hp & _ & Hinv) Hcalls Hq.
  destruct (successive_stock_level _ _ _ Hcalls Hp) as (Hp' & _ & Hst).
  rewrite get_product_quantity_run, Hq.
  unfold view. rewrite Hp', Hst.
  unfold stock_level at 1. rewrite Hinv. simpl. reflexivity.
Qed.

(** Purchase 10 then Sale 3 leaves 7. *)
Lemma stock_is_fold_of_calls_witness :
  get_product_quantity permissive 1 1
    (mkConnection
       (mkTables (products fresh_tables) (locations fresh_tables)
          builtin_types
          [mkLedgerRow 1 1 1 1 10 "2024-03-01 09:00:00" None None
             (Some "System");
           mkLedgerRow 2 1 1 2 3 "2024-03-01 09:00:00" None None
             (Some "System")]
          [mkInventoryRow 1 1 1 7 None (Some "2024-03-01 14:00:00")])
       None)
  = (inr 7,
     mkConnection
       (mkTables (products fresh_tables) (locations fresh_tables)
          builtin_types
          [mkLedgerRow 1 1 1 1 10 "2024-03-01 09:00:00" None None
             (Some "System");
           mkLedgerRow 2 1 1 2 3 "2024-03-01 09:00:00" None None
             (Some "System")]
          [mkInventoryRow 1 1 1 7 None (Some "2024-03-01 14:00:00")])
       None).
Proof.
  apply (stock_is_fold_of_calls fresh
           [a_transaction 1 10 1 None; a_transaction 2 3 1 None]).
  - split; [reflexivity | split; reflexivity].
  - eapply (successive_cons permissive); [vm_compute; reflexivity |].
    eapply (successive_cons permissive); [vm_compute; reflexivity |].
    apply successive_nil.
  - reflexivity.
Defined.

(** A sale from an empty store leaves a negative stock level. *)
Example stock_may_be_negative :
  exists c,
    replay permissive [a_transaction 2 3 1 None] fresh = Some c
    /\ get_product_quantity permissive 1 1 c = (inr (-3), c).
Proof. eexists. split; vm_compute; reflexivity. Qed.

(** ** Failure *)

(** C2. When [record_transaction] raises, at whatever step (the BEGIN, the
    registry lookup, the ledger insert, the read, update or insert of the
    stock level, or the commit), the caller gets the exception and no
    transaction id, and the connection holds exactly the tables that were
    committed before the call, with no transaction left open: neither the
    ledger entry nor the stock-level change persists. *)
Theorem record_transaction_rolls_back E tx c e c' tx' :
  record_transaction E tx c = (inl e, (c', tx')) ->
  durable c' = durable c /\ pending c' = None.
Proof.
  intros H. apply record_transaction_inl in H. subst c'.
  split; reflexivity.
Qed.

(** The engine fails at COMMIT, after the ledger insert and the stock-level
    insert were executed. *)
Lemma record_transaction_rolls_back_witness :
  durable fresh = durable fresh /\ pending fresh = None.
Proof.
  apply (record_transaction_rolls_back failing_commit
           (a_transaction 1 10 1 None) fresh (sqlite3_Error COMMIT) fresh
           (with_date (a_transaction 1 10 1 None) (now failing_commit))).
  vm_compute. reflexivity.
Defined.

(** Called with no transaction open, a call that raises leaves the whole
    connection as it found it. *)
Lemma record_transaction_inl_quiescent E tx c e c' tx' :
  pending c = None ->
  record_transaction E tx c = (inl e, (c', tx')) ->
  c' = c.
Proof.
  intros Hp H. apply record_transaction_inl in H. subst c'.
  destruct c; simpl in *; subst; reflexivity.
Qed.

(** What a call can raise: the [ValueError] of the type check, or the error of
    one of the seven statements it executes. *)
Lemma record_transaction_raises E tx c e w :
  record_transaction E tx c = (inl e, w) ->
  e = ValueError (transaction_type_id tx)
  \/ exists s, e = sqlite3_Error s
       /\ match s with
          | BEGIN_TRANSACTION | SELECT_affects_inventory _
          | INSERT_inventory_transactions _ _ | SELECT_inventory _ _
          | UPDATE_inventory _ _ _ | INSERT_inventory _ _ _ | COMMIT => True
          | _ => False
          end.
Proof.
  destruct c as [d p]. run_db. intros H.
  repeat (case_match; simplify_eq/=);
    first [ left; reflexivity
          | right; eexists; split; [reflexivity | exact I] ].
Qed.

(** C3. A candidate whose type is not in the registry is refused: the call
    raises, and leaves the connection (ledger, stock levels, everything) and
    the caller's object exactly as they were.  The exception is the
    [ValueError] "Invalid transaction type ID" whenever the engine executed
    the BEGIN and the registry lookup; no other statement is executed, so no
    write is attempted. *)
Theorem record_transaction_invalid_type E tx c :
  pending c = None ->
  transaction_types (durable c) !! transaction_type_id tx = None ->
  (exists e, record_transaction E tx c = (inl e, (c, tx)))
  /\ (raises E (durable c) BEGIN_TRANSACTION = false ->
      raises E (durable c) (SELECT_affects_inventory (transaction_type_id tx))
      = false ->
      record_transaction E tx c
      = (inl (ValueError (transaction_type_id tx)), (c, tx))).
Proof.
  destruct c as [d p]. simpl. intros -> Hty. run_db. split.
  - destruct (raises E d BEGIN_TRANSACTION); simpl; [eauto |].
    destruct (raises E d _); simpl; [eauto |].
    rewrite Hty. simpl. eauto.
  - intros Hb Hs. rewrite Hb. simpl. rewrite Hs. simpl. rewrite Hty.
    reflexivity.
Qed.

(** Type 99 on the built-in registry. *)
Lemma record_transaction_invalid_type_witness :
  (exists e,
     record_transaction permissive (a_transaction 99 5 1 None) fresh
     = (inl e, (fresh, a_transaction 99 5 1 None)))
  /\ (raises permissive (durable fresh) BEGIN_TRANSACTION = false ->
      raises permissive (durable fresh) (SELECT_affects_inventory 99) = false ->
      record_transaction permissive (a_transaction 99 5 1 None) fresh
      = (inl (ValueError 99), (fresh, a_transaction 99 5 1 None))).
Proof.
  apply (record_transaction_invalid_type permissive
           (a_transaction 99 5 1 None) fresh).
  - reflexivity.
  - vm_compute. reflexivity.
Defined.

(** ** Transfers *)

(** C9. A Transfer Out of [q] at [A] followed by a Transfer In of [q] at [B],
    for the same product and with registry effects -1 and +1, leaves the sum
    of what [get_product_quantity] returns for the two locations as it was
    before the two calls.  (No sign is asked of [q]: the equation holds for
    every quantity, the positive ones included.) *)
Theorem transfer_conserves_total E1 E2 Ea Eb Ea' Eb' c c1 c2
    tx_out tx_in id1 id2 tx_out' tx_in' P A B q a b a' b' :
  product_id tx_out = P -> location_id tx_out = A -> quantity tx_out = q ->
  product_id tx_in = P -> location_id tx_in = B -> quantity tx_in = q ->
  effect_of (transaction_types (durable c)) (transaction_type_id tx_out)
  = -1 ->
  effect_of (transaction_types (durable c)) (transaction_type_id tx_in) = 1 ->
  get_product_quantity Ea P A c = (inr a, c) ->
  get_product_quantity Eb P B c = (inr b, c) ->
  record_transaction E1 tx_out c = (inr id1, (c1, tx_out')) ->
  record_transaction E2 tx_in c1 = (inr id2, (c2, tx_in')) ->
  get_product_quantity Ea' P A c2 = (inr a', c2) ->
  get_product_quantity Eb' P B c2 = (inr b', c2) ->
  a' + b' = a + b.
Proof.
  intros HP1 HA Hq1 HP2 HB Hq2 Hout Hin Ha Hb Hc1 Hc2 Ha' Hb'.
  apply record_transaction_inr in Hc1 as (Hp0 & Hp1 & Hr1).
  apply record_transaction_inr in Hc2 as (_ & Hp2 & Hr2).
  assert (Hty : transaction_types (durable c1) = transaction_types (durable c))
    by (destruct Hr1 as (? & _ & _ & _ & _ & _ & Hty & _); exact Hty).
  rewrite get_product_quantity_run in Ha, Hb, Ha', Hb'.
  unfold view in *. rewrite Hp0 in Ha, Hb. rewrite Hp2 in Ha', Hb'.
  subst P A B q.
  repeat match goal with
         | H : (_, _) = (_, _) |- _ => injection H as H
         end.
  repeat match goal with
         | H : (if ?x then _ else _) = inr _ |- _ =>
             destruct x; [discriminate H | injection H as <-]
         end.
  rewrite !(recorded_stock_level _ _ _ _ _ _ _ _ Hr2).
  rewrite !(recorded_stock_level _ _ _ _ _ _ _ _ Hr1).
  rewrite Hty, Hout, Hin.
  unfold touches. rewrite ?HP2, ?Hq2, !Z.eqb_refl. simpl.
  destruct (location_id tx_out =? location_id tx_in) eqn:HAB.
  - apply Z.eqb_eq in HAB. rewrite <- HAB, Z.eqb_refl. lia.
  - rewrite (Z.eqb_sym (location_id tx_in)), HAB. lia.
Qed.

(** Five units of the product go from location 1 (7 in stock) to location 2
    (3 in stock). *)
Lemma transfer_conserves_total_witness : 2 + 8 = 7 + 3.
Proof.
  eapply (transfer_conserves_total permissive permissive permissive permissive
            permissive permissive three_days _ _
            (a_transaction 5 5 1 None) (a_transaction 4 5 2 None));
    [ reflexivity | reflexivity | reflexivity
    | reflexivity | reflexivity | reflexivity
    | vm_compute; reflexivity | vm_compute; reflexivity
    | vm_compute; reflexivity | vm_compute; reflexivity
    | vm_compute; reflexivity | vm_compute; reflexivity
    | vm_compute; reflexivity | vm_compute; reflexivity ].
Defined.

(** ** What one call changes *)

Lemma filter_empty_find_none {A} (P : A -> bool) (rows : list A) :
  find P rows = None -> List.filter P rows = [].
Proof.
  induction rows as [| x rows IH]; simpl; [reflexivity |].
  destruct (P x); [discriminate | exact IH].
Qed.



Lemma filter_map_keeping {A} (Q P : A -> bool) (f : A -> A) (rows : list A) :
  (forall x, P x = true -> Q x = false /\ Q (f x) = false) ->
  List.filter Q (map (fun x => if P x then f x else x) rows)
  = List.filter Q rows.
Proof.
  intros Hf. induction rows as [| x rows IH]; simpl; [reflexivity |].
  destruct (P x) eqn:Px.
  - destruct (Hf x Px) as [-> ->]. exact IH.
  - rewrite IH. reflexivity.
Qed.

Lemma filter_length_map {A} (Q : A -> bool) (g : A -> A) (rows : list A) :
  (forall x, Q (g x) = Q x) ->
  length (List.filter Q (map g rows)) = length (List.filter Q rows).
Proof.
  intros Hg. induction rows as [| x rows IH]; simpl; [reflexivity |].
  rewrite Hg. destruct (Q x); simpl; rewrite IH; reflexivity.
Qed.

Lemma at_pair_other p l p' l' r :
  (p =? p') && (l =? l') = false ->
  at_pair p l r = true -> at_pair p' l' r = false.
Proof.
  intros Hne Hr. apply at_pair_true in Hr as [<- <-].
  unfold at_pair. exact Hne.
Qed.



(** ** Quantities that are not positive *)

(** [record_transaction] on a candidate of quantity 0, and on one of quantity
    -5, with the engine that refuses nothing: both calls return an id, append
    their ledger entry and create the stock-level row. *)
Lemma record_transaction_accepts_nonpositive_quantity :
  (exists c' tx',
     record_transaction permissive (a_transaction 1 0 1 None) fresh
     = (inr 1, (c', tx'))
     /\ inventory_transactions (durable c')
        = [mkLedgerRow 1 1 1 1 0 "2024-03-01 09:00:00" None None
             (Some "System")]
     /\ inventory (durable c') = [mkInventoryRow 1 1 1 0 None None])
  /\ (exists c' tx',
        record_transaction permissive (a_transaction 1 (-5) 1 None) fresh
        = (inr 1, (c', tx'))
        /\ inventory_transactions (durable c')
           = [mkLedgerRow 1 1 1 1 (-5) "2024-03-01 09:00:00" None None
                (Some "System")]
        /\ inventory (durable c') = [mkInventoryRow 1 1 1 (-5) None None]).
Proof.
  split; do 2 eexists; (split; [vm_compute; reflexivity |]);
    split; reflexivity.
Qed.

(** C4, as the code has it.  [record_transaction] does not look at the sign
    of the quantity.  For a candidate of any quantity (zero and negative
    included) whose type is registered: when the engine executes every
    statement, the call returns an id, appends the ledger entry with that
    quantity and moves the stock level of the pair by
    [quantity * affects_inventory]; and when the call raises, what it raises
    is an error of the engine, and the connection is as before. *)
Theorem record_transaction_any_quantity E tx c row :
  pending c = None ->
  transaction_types (durable c) !! transaction_type_id tx = Some row ->
  ((forall t s, raises E t s = false) ->
   exists id c' tx',
     record_transaction E tx c = (inr id, (c', tx'))
     /\ inventory_transactions (durable c')
        = (inventory_transactions (durable c)
             ++ [ledger_row_of id tx
                   (default (now E) (transaction_date tx))])%list
     /\ stock_level (durable c') (product_id tx) (location_id tx)
        = stock_level (durable c) (product_id tx) (location_id tx)
          + quantity tx * affects_inventory row)
  /\ (forall e c' tx',
        record_transaction E tx c = (inl e, (c', tx')) ->
        (exists s, e = sqlite3_Error s) /\ c' = c).
Proof.
  intros Hp Hrow. split.
  - intros Hq.
    destruct (record_transaction_returns E tx c row Hp Hq Hrow)
      as (id & c' & Hcall).
    exists id, c', (with_date tx (default (now E) (transaction_date tx))).
    split; [exact Hcall |].
    apply record_transaction_inr in Hcall as (_ & _ & Hrec).
    pose proof (recorded_stock_level _ _ _ _ _ _
                  (product_id tx) (location_id tx) Hrec) as Hst.
    destruct Hrec as (row' & Hrow' & _ & _ & _ & _ & _ & Hled & _).
    split; [exact Hled |].
    rewrite Hst. unfold touches, effect_of.
    rewrite !Z.eqb_refl, Hrow. reflexivity.
  - intros e c' tx' Hcall. split.
    + destruct (record_transaction_raises _ _ _ _ _ Hcall)
        as [-> | (s & -> & _)]; [| eauto].
      exfalso. revert Hcall. destruct c as [d p]. simpl in Hp. subst p.
      run_db. intros H.
      repeat (case_match; simplify_eq/=); congruence.
    + exact (record_transaction_inl_quiescent _ _ _ _ _ _ Hp Hcall).
Qed.

(** Quantity 0, type Purchase. *)
Lemma record_transaction_any_quantity_witness :
  ((forall t s, raises permissive t s = false) ->
   exists id c' tx',
     record_transaction permissive (a_transaction 1 0 1 None) fresh
     = (inr id, (c', tx'))
     /\ inventory_transactions (durable c')
        = (inventory_transactions (durable fresh)
             ++ [ledger_row_of id (a_transaction 1 0 1 None)
                   (default (now permissive) None)])%list
     /\ stock_level (durable c') 1 1
        = stock_level (durable fresh) 1 1
          + 0 * affects_inventory (mkTransactionTypeRow "Purchase" 1))
  /\ (forall e c' tx',
        record_transaction permissive (a_transaction 1 0 1 None) fresh
        = (inl e, (c', tx')) ->
        (exists s, e = sqlite3_Error s) /\ c' = fresh).
Proof.
  apply (record_transaction_any_quantity permissive
           (a_transaction 1 0 1 None) fresh
           (mkTransactionTypeRow "Purchase" 1)).
  - reflexivity.
  - vm_compute. reflexivity.
Defined.

(** ** The manual recount *)

(** [sold_out] is what a purchase of 10 and a sale of 10 leave. *)
Example sold_out_reachable :
  replay permissive [a_transaction 1 10 1 None; a_transaction 2 10 1 None]
    fresh
  = Some sold_out.
Proof. vm_compute. reflexivity. Qed.

(** The branch [update_inventory_quantity] takes is decided by the sign of
    the quantity it read, not by the presence of a row: a positive quantity
    leads to the UPDATE. *)
Lemma update_inventory_quantity_positive E p l q counted_at c :
  pending c = None ->
  (forall t s, raises E t s = false) ->
  0 < stock_level (durable c) p l ->
  update_inventory_quantity E p l q counted_at c
  = (inr true,
     mkConnection
       (snd (update_inventory_counted E q (default (now E) counted_at) p l
               (durable c)))
       None).
Proof.
  destruct c as [d pd]. simpl. intros -> Hq Hpos.
  unfold update_inventory_quantity, bind at 1.
  rewrite get_product_quantity_run, Hq. unfold view. simpl.
  apply Z.ltb_lt in Hpos. rewrite Hpos.
  unfold try_except, execute_update, try_except, bind, execute_dml, commit,
    ret, view. simpl.
  rewrite !Hq. simpl. rewrite Hq. destruct counted_at; reflexivity.
Qed.

(** Any other quantity, that of a row holding zero or less included, leads to
    the INSERT of one more row. *)
Lemma update_inventory_quantity_nonpositive E p l q counted_at c :
  pending c = None ->
  (forall t s, raises E t s = false) ->
  stock_level (durable c) p l <= 0 ->
  update_inventory_quantity E p l q counted_at c
  = (inr true,
     mkConnection
       (snd (insert_inventory_counted p l q (default (now E) counted_at)
               (durable c)))
       None).
Proof.
  destruct c as [d pd]. simpl. intros -> Hq Hneg.
  unfold update_inventory_quantity, bind at 1.
  rewrite get_product_quantity_run, Hq. unfold view. simpl.
  assert (Hlt : (0 <? stock_level d p l) = false) by (apply Z.ltb_ge; lia).
  rewrite Hlt.
  unfold try_except, execute_insert, try_except, bind, execute_dml, commit,
    ret, view. simpl.
  rewrite !Hq. simpl. rewrite Hq. destruct counted_at; reflexivity.
Qed.

(** C5, at a row of quantity 0.  The recount of the pair to 5 does not
    overwrite the row: where the engine accepts the INSERT there are two rows
    for the pair afterwards, the old one first, and [get_product_quantity]
    still returns 0; where the table has the key of the data model the INSERT
    is refused, the call raises and the row keeps its quantity. *)
Theorem update_inventory_quantity_on_zero_row :
  (exists c',
     update_inventory_quantity permissive 1 1 5 (Some "2024-03-02 08:00:00")
       sold_out
     = (inr true, c')
     /\ inventory (durable c')
        = [mkInventoryRow 1 1 1 0 None (Some "2024-03-01 14:00:00");
           mkInventoryRow 2 1 1 5 (Some "2024-03-02 08:00:00") None]
     /\ get_product_quantity permissive 1 1 c' = (inr 0, c'))
  /\ update_inventory_quantity unique_pair 1 1 5 (Some "2024-03-02 08:00:00")
       sold_out
     = (inl (sqlite3_Error
               (INSERT_inventory_counted 1 1 5 "2024-03-02 08:00:00")),
        sold_out).
Proof.
  split.
  - eexists. split; [vm_compute; reflexivity |].
    split; [reflexivity | vm_compute; reflexivity].
  - vm_compute. reflexivity.
Qed.

(** ** The transaction history *)

(** Text comparison is a total preorder. *)
Lemma string_leb_trans (a b c : string) :
  (a <=? b)%string = true -> (b <=? c)%string = true ->
  (a <=? c)%string = true.
Proof.
  unfold String.leb.
  destruct (a ?= b)%string eqn:Hab; [| | discriminate];
    (destruct (b ?= c)%string eqn:Hbc; [| | discriminate]); intros _ _.
  - apply String_as_OT.cmp_eq in Hab. subst b. rewrite Hbc. reflexivity.
  - apply String_as_OT.cmp_eq in Hab. subst b. rewrite Hbc. reflexivity.
  - apply String_as_OT.cmp_eq in Hbc. subst c. rewrite Hab. reflexivity.
  - apply String_as_OT.cmp_lt in Hab, Hbc.
    pose proof (String_as_OT.lt_trans _ _ _ Hab Hbc) as Hac.
    apply String_as_OT.cmp_lt in Hac. unfold String_as_OT.cmp in Hac.
    rewrite Hac. reflexivity.
Qed.

Lemma date_desc_total : Total date_desc.
Proof. intros x y. unfold date_desc. apply String.leb_total. Qed.

Lemma date_desc_trans : Transitive date_desc.
Proof.
  intros x y z Hxy Hyz. unfold date_desc in *.
  exact (string_leb_trans _ _ _ Hyz Hxy).
Qed.

Lemma in_take {A} (n : nat) (rows : list A) (x : A) :
  In x (take n rows) -> In x rows.
Proof.
  intros H. rewrite <- (take_drop n rows). apply in_or_app. left. exact H.
Qed.

Lemma sql_limit_length {A} (n : Z) (rows : list A) :
  0 <= n -> Z.of_nat (length (sql_limit n rows)) <= n.
Proof.
  intros Hn. unfold sql_limit.
  destruct (Z.ltb_spec n 0); [lia |].
  rewrite length_take. lia.
Qed.

Lemma sql_limit_sorted {A} (R : relation A) (n : Z) (rows : list A) :
  StronglySorted R rows -> StronglySorted R (sql_limit n rows).
Proof.
  intros Hs. unfold sql_limit. destruct (n <? 0); [exact Hs |].
  rewrite <- (take_drop (Z.to_nat n) rows) in Hs.
  exact (StronglySorted_app_1_l R _ _ Hs).
Qed.

(** The history with a limit of -1 on the store of three entries: all three
    come back. *)
Lemma history_negative_limit_unbounded :
  exists rows,
    get_transaction_history permissive None None None None (Some (-1))
      three_days
    = (inr rows, three_days)
    /\ length rows = 3%nat
    /\ ~ Z.of_nat (length rows) <= -1.
Proof.
  eexists. split; [vm_compute; reflexivity |].
  split; [reflexivity | simpl; lia].
Qed.

(** C8, as the code has it.  When the engine executes the query,
    [get_transaction_history] returns, for every combination of filters and
    every limit ([None]: left out, standing for 100), a list [rows] such that,
    with [ordered] a rearrangement of the matching ledger entries that is
    descending by transaction date: [rows] is the first [limit] entries of
    [ordered] when [limit] is not negative, and all of [ordered] when it is
    negative.  So [rows] is descending by date, has at most [limit] entries
    for a limit that is not negative, and holds only ledger entries that the
    filters select, joined with their names.  The connection is unchanged. *)
Theorem get_transaction_history_spec E p l s e limit c :
  raises E (view c) (SELECT_history p l s e (default 100 limit)) = false ->
  exists rows ordered,
    get_transaction_history E p l s e limit c = (inr rows, c)
    /\ ordered ≡ₚ matching_history p l s e (view c)
    /\ StronglySorted date_desc ordered
    /\ rows = (if default 100 limit <? 0 then ordered
               else take (Z.to_nat (default 100 limit)) ordered)
    /\ StronglySorted date_desc rows
    /\ (0 <= default 100 limit ->
        Z.of_nat (length rows) <= default 100 limit)
    /\ (forall h, In h rows ->
          exists r,
            In r (inventory_transactions (view c))
            /\ join_names (view c) r = Some h
            /\ history_where p l s e h = true).
Proof.
  intros Hq.
  exists (select_history p l s e (default 100 limit) (view c)),
         (merge_sort date_desc (matching_history p l s e (view c))).
  assert (Hsorted : StronglySorted date_desc
            (merge_sort date_desc (matching_history p l s e (view c))))
    by (apply StronglySorted_merge_sort;
        [apply date_desc_trans | apply date_desc_total]).
  repeat split.
  - unfold get_transaction_history, execute_query, try_except, execute_select.
    rewrite Hq. reflexivity.
  - apply merge_sort_Permutation.
  - exact Hsorted.
  - apply sql_limit_sorted. exact Hsorted.
  - apply sql_limit_length.
  - intros h Hin. unfold select_history, sql_limit in Hin.
    assert (Hall : In h (matching_history p l s e (view c))).
    { apply (Permutation_in h
               (merge_sort_Permutation date_desc
                  (matching_history p l s e (view c)))).
      destruct (default 100 limit <? 0); [exact Hin |].
      exact (in_take _ _ _ Hin). }
    apply filter_In in Hall as [Hjoin Hwhere].
    apply list_elem_of_In, list_elem_of_omap in Hjoin as (r & Hr & Hj).
    exists r. rewrite <- list_elem_of_In. auto.
Qed.

(** The two newest of the three entries. *)
Lemma get_transaction_history_spec_witness :
  exists rows ordered,
    get_transaction_history permissive None None None None (Some 2)
      three_days
    = (inr rows, three_days)
    /\ ordered ≡ₚ matching_history None None None None (view three_days)
    /\ StronglySorted date_desc ordered
    /\ rows = (if default 100 (Some 2) <? 0 then ordered
               else take (Z.to_nat (default 100 (Some 2))) ordered)
    /\ StronglySorted date_desc rows
    /\ (0 <= default 100 (Some 2) ->
        Z.of_nat (length rows) <= default 100 (Some 2))
    /\ (forall h, In h rows ->
          exists r,
            In r (inventory_transactions (view three_days))
            /\ join_names (view three_days) r = Some h
            /\ history_where None None None None h = true).
Proof.
  apply (get_transaction_history_spec permissive None None None None (Some 2)
           three_days).
  reflexivity.
Defined.

(** A call that leaves [limit] out asks for 100 rows. *)
Example history_default_limit E p l s e c :
  get_transaction_history E p l s e None c
  = get_transaction_history E p l s e (Some 100) c.
Proof. reflexivity. Qed.

(** ** The date of the caller's object *)

(** A candidate without a date and with a type the registry does not have:
    the call raises before the assignment, and the object still has no
    date. *)
Lemma record_transaction_unregistered_keeps_no_date :
  transaction_date (a_transaction 99 5 1 None) = None
  /\ record_transaction permissive (a_transaction 99 5 1 None) fresh
     = (inl (ValueError 99), (fresh, a_transaction 99 5 1 None))
  /\ transaction_date
       (snd (snd (record_transaction permissive (a_transaction 99 5 1 None)
                    fresh)))
     = None.
Proof. split; [reflexivity | split; vm_compute; reflexivity]. Qed.

(** C10, as the code has it.  Whatever the outcome of the call, the caller's
    object afterwards is the object it passed, with [transaction_date] set to
    the current time if the date was [None] and the call got past the type
    check ([reaches_insert]: a transaction could be begun, the registry could
    be read and has the type); in every other case, in particular whenever
    the date was already set, the object is exactly as passed.  The
    assignment comes before the ledger insert: an INSERT that the engine
    refuses was executed with the object as assigned and with that date, and
    the entry of a call that returns carries that date (the caller's own date
    when it gave one). *)
Theorem record_transaction_assigns_date E tx c r c' tx' :
  record_transaction E tx c = (r, (c', tx')) ->
  tx' = (if reaches_insert E tx c
         then with_date tx (default (now E) (transaction_date tx))
         else tx)
  /\ (forall d, transaction_date tx = Some d -> tx' = tx)
  /\ (transaction_date tx = None -> reaches_insert E tx c = true ->
      transaction_date tx' = Some (now E))
  /\ (forall tx0 d0,
        r = inl (sqlite3_Error (INSERT_inventory_transactions tx0 d0)) ->
        tx0 = tx' /\ d0 = default (now E) (transaction_date tx))
  /\ (forall id,
        r = inr id ->
        inventory_transactions (durable c')
        = (inventory_transactions (durable c)
             ++ [ledger_row_of id tx
                   (default (now E) (transaction_date tx))])%list).
Proof.
  intros Hcall.
  assert (Hobj : tx' = (if reaches_insert E tx c
                        then with_date tx
                               (default (now E) (transaction_date tx))
                        else tx)
                 /\ forall tx0 d0,
                      r = inl (sqlite3_Error
                                 (INSERT_inventory_transactions tx0 d0)) ->
                      tx0 = tx' /\ d0 = default (now E) (transaction_date tx)).
  { revert Hcall. unfold reaches_insert. destruct c as [d p]. run_db.
    intros H.
    repeat (case_match; simplify_eq/=);
      repeat match goal with
        | H : transaction_date _ = _ |- _ => rewrite H; simpl
        | H : transaction_date _ = Some _ |- _ =>
            rewrite (with_date_same _ _ H)
        | H : bool_decide _ = true |- _ => apply bool_decide_eq_true in H
        | H : bool_decide _ = false |- _ => apply bool_decide_eq_false in H
        | H : ?m !! ?k = _, H' : context [?m !! ?k] |- _ =>
            rewrite H in H'
        | H : raises ?E ?t ?s = _, H' : context [raises ?E ?t ?s] |- _ =>
            rewrite H in H'; simpl in H'
        | H : is_Some None |- _ => destruct H; discriminate
        | H : ~ is_Some (Some _) |- _ => destruct H; eauto
        end;
      simpl; split; try reflexivity; try (intros ? ? [=]; subst; auto);
      try congruence. }
  destruct Hobj as [Hobj Hins].
  split; [exact Hobj |].
  split; [| split; [| split; [exact Hins |]]].
  - intros d Hd. rewrite Hobj, Hd. simpl. rewrite (with_date_same _ _ Hd).
    destruct (reaches_insert E tx c); reflexivity.
  - intros Hd Hreach. rewrite Hobj, Hreach, Hd. reflexivity.
  - intros id ->. apply record_transaction_inr in Hcall as (_ & _ & Hrec).
    destruct Hrec as (row & _ & _ & _ & _ & _ & _ & Hled & _). exact Hled.
Qed.

(** A purchase without a date on the fresh store. *)
Lemma record_transaction_assigns_date_witness :
  transaction_date
    (with_date (a_transaction 1 10 1 None) (now permissive))
  = Some (now permissive).
Proof.
  refine (proj1 (proj2 (proj2
    (record_transaction_assigns_date permissive (a_transaction 1 10 1 None)
       fresh (inr 1)
       (mkConnection
          (mkTables (products fresh_tables) (locations fresh_tables)
             builtin_types
             [mkLedgerRow 1 1 1 1 10 "2024-03-01 09:00:00" None None
                (Some "System")]
             [mkInventoryRow 1 1 1 10 None None])
          None)
       (with_date (a_transaction 1 10 1 None) (now permissive))
       _))) _ _).
  - vm_compute. reflexivity.
  - reflexivity.
  - vm_compute. reflexivity.
Defined.

(** * Further properties *)

(** ** DatabaseManager: one statement, committed or rolled back *)

Lemma execute_write_outcome E s (effect : Tables -> Z * Tables) c :
  let '(r, c') := execute_insert E s effect c in
  pending c' = None
  /\ match r with
     | inr id =>
         raises E (view c) s = false
         /\ raises E (snd (effect (view c))) COMMIT = false
         /\ id = fst (effect (view c))
         /\ durable c' = snd (effect (view c))
     | inl _ => durable c' = durable c
     end.
Proof.
  unfold execute_insert, try_except, bind, execute_dml, commit, rollback,
    raise, ret.
  destruct (raises E (view c) s) eqn:Hs; simpl; [auto |].
  destruct (effect (view c)) as [a t'] eqn:He; simpl.
  destruct (raises E t' COMMIT) eqn:Hc; simpl; auto.
Qed.

(** X1. [execute_insert] and [execute_update] never leave a transaction open,
    and either commit or roll back: when they return, the statement and the
    COMMIT were executed, the value is the statement's ([lastrowid],
    [rowcount]) and the committed tables are what the statement made of the
    tables the connection showed, work that was pending on the connection
    included; when they raise, the committed tables are as before, and work
    that was pending is discarded with the statement. *)
Theorem execute_insert_update_atomic E s (effect : Tables -> Z * Tables) c :
  (let '(r, c') := execute_insert E s effect c in
   pending c' = None
   /\ match r with
      | inr id =>
          raises E (view c) s = false
          /\ raises E (snd (effect (view c))) COMMIT = false
          /\ id = fst (effect (view c))
          /\ durable c' = snd (effect (view c))
      | inl _ => durable c' = durable c
      end)
  /\ (let '(r, c') := execute_update E s effect c in
      pending c' = None
      /\ match r with
         | inr n =>
             raises E (view c) s = false
             /\ raises E (snd (effect (view c))) COMMIT = false
             /\ n = fst (effect (view c))
             /\ durable c' = snd (effect (view c))
         | inl _ => durable c' = durable c
         end).
Proof. split; apply execute_write_outcome. Qed.

(** ** The manual recount, in general *)

(** What [update_inventory_quantity] evaluates to on a connection without an
    open transaction. *)
Lemma update_inventory_quantity_run E p l q counted_at c :
  pending c = None ->
  let d := default (now E) counted_at in
  let t := durable c in
  update_inventory_quantity E p l q counted_at c
  = if raises E t (SELECT_quantity p l)
    then (inl (sqlite3_Error (SELECT_quantity p l)), c)
    else if 0 <? stock_level t p l
    then
      if raises E t (UPDATE_inventory_counted q d p l)
      then (inl (sqlite3_Error (UPDATE_inventory_counted q d p l)), c)
      else if raises E (snd (update_inventory_counted E q d p l t)) COMMIT
      then (inl (sqlite3_Error COMMIT), c)
      else (inr true,
            mkConnection (snd (update_inventory_counted E q d p l t)) None)
    else
      if raises E t (INSERT_inventory_counted p l q d)
      then (inl (sqlite3_Error (INSERT_inventory_counted p l q d)), c)
      else if raises E (snd (insert_inventory_counted p l q d t)) COMMIT
      then (inl (sqlite3_Error COMMIT), c)
      else (inr true,
            mkConnection (snd (insert_inventory_counted p l q d t)) None).
Proof.
  destruct c as [t pd]. simpl. intros ->.
  unfold update_inventory_quantity, bind at 1.
  rewrite get_product_quantity_run. unfold view. simpl.
  destruct (raises E t (SELECT_quantity p l)); [reflexivity |].
  destruct counted_at as [s |]; simpl; destruct (0 <? stock_level t p l).
  all: unfold try_except, execute_update, execute_insert, try_except, bind,
         execute_dml, commit, rollback, raise, ret, view; simpl.
  all: repeat (case_match; simplify_eq/=); reflexivity.
Qed.

Lemma stock_level_update_counted E q d p l t :
  stock_level (snd (update_inventory_counted E q d p l t)) p l
  = match find (at_pair p l) (inventory t) with
    | Some _ => q
    | None => 0
    end.
Proof.
  unfold stock_level, update_inventory_counted. simpl.
  rewrite find_map_keeping
    by (intros x; destruct (at_pair p l x) eqn:Hx; exact Hx).
  destruct (find (at_pair p l) (inventory t)) as [r |] eqn:Hr; simpl.
  - rewrite (find_some_holds _ _ _ Hr). reflexivity.
  - reflexivity.
Qed.

Lemma stock_level_insert_counted q d p l t :
  stock_level (snd (insert_inventory_counted p l q d t)) p l
  = match find (at_pair p l) (inventory t) with
    | Some r => i_quantity r
    | None => q
    end.
Proof.
  unfold stock_level, insert_inventory_counted. simpl. rewrite find_snoc.
  destruct (find (at_pair p l) (inventory t)); [reflexivity |].
  unfold at_pair. simpl. rewrite !Z.eqb_refl. reflexivity.
Qed.

Lemma find_none_no_row {A} (P : A -> bool) (rows : list A) :
  (forall r, In r rows -> P r = false) -> find P rows = None.
Proof.
  intros Hno. destruct (find P rows) as [r |] eqn:Hr; [| reflexivity].
  apply find_some in Hr as [Hin Hp]. rewrite (Hno r Hin) in Hp. discriminate.
Qed.

(** X2. A recount reads back when the pair has no row yet or has a positive
    stock level: with an engine that executes every statement,
    [update_inventory_quantity] returns [True], leaves no transaction open
    and the ledger as it was, and afterwards [get_product_quantity] returns
    the new quantity and the pair has a row carrying it, stamped with
    [counted_at] (the current time when [counted_at] is [None]). *)
Theorem recount_reads_back E p l q counted_at c :
  pending c = None ->
  (forall t s, raises E t s = false) ->
  (0 < stock_level (durable c) p l
   \/ forall r, In r (inventory (durable c)) -> at_pair p l r = false) ->
  exists c',
    update_inventory_quantity E p l q counted_at c = (inr true, c')
    /\ pending c' = None
    /\ get_product_quantity E p l c' = (inr q, c')
    /\ (exists r,
          In r (inventory (durable c')) /\ at_pair p l r = true
          /\ i_quantity r = q
          /\ last_counted_at r = Some (default (now E) counted_at))
    /\ inventory_transactions (durable c')
       = inventory_transactions (durable c).
Proof.
  intros Hp Hq Hcase.
  rewrite (update_inventory_quantity_run E p l q counted_at c Hp).
  cbv zeta. rewrite !Hq.
  destruct Hcase as [Hpos | Hno].
  - pose proof Hpos as Hlt. apply Z.ltb_lt in Hlt. rewrite Hlt.
    eexists. split; [reflexivity |]. split; [reflexivity |].
    assert (Hfind : exists r0, find (at_pair p l) (inventory (durable c))
                               = Some r0).
    { unfold stock_level in Hpos.
      destruct (find (at_pair p l) (inventory (durable c))); [eauto | lia]. }
    destruct Hfind as (r0 & Hr0).
    split; [| split; [| reflexivity]].
    + rewrite get_product_quantity_run, Hq. unfold view. cbn [pending durable].
      rewrite stock_level_update_counted, Hr0. reflexivity.
    + apply find_some in Hr0 as [Hin Hat].
      eexists. split; [| split; [| split]].
      * simpl. apply in_map_iff. exists r0. split; [reflexivity | exact Hin].
      * rewrite Hat. exact Hat.
      * rewrite Hat. reflexivity.
      * rewrite Hat. reflexivity.
  - rewrite (stock_level_no_row _ _ _ Hno), Z.ltb_irrefl. cbv iota.
    eexists. split; [reflexivity |]. split; [reflexivity |].
    split; [| split; [| reflexivity]].
    + rewrite get_product_quantity_run, Hq. unfold view. cbn [pending durable].
      rewrite stock_level_insert_counted, (find_none_no_row _ _ Hno).
      reflexivity.
    + eexists. split; [| split; [| split]].
      * simpl. apply in_or_app. right. left. reflexivity.
      * unfold at_pair. simpl. rewrite !Z.eqb_refl. reflexivity.
      * reflexivity.
      * reflexivity.
Qed.

(** The first recount of location 2 on the fresh store. *)
Lemma recount_reads_back_witness :
  exists c',
    update_inventory_quantity permissive 1 2 6 None fresh = (inr true, c')
    /\ pending c' = None
    /\ get_product_quantity permissive 1 2 c' = (inr 6, c')
    /\ (exists r,
          In r (inventory (durable c')) /\ at_pair 1 2 r = true
          /\ i_quantity r = 6
          /\ last_counted_at r = Some (default (now permissive) None))
    /\ inventory_transactions (durable c')
       = inventory_transactions (durable fresh).
Proof.
  apply (recount_reads_back permissive 1 2 6 None fresh).
  - reflexivity.
  - reflexivity.
  - right. simpl. tauto.
Defined.

(** X3. A recount of a pair whose row holds zero or less does not reach the
    row: with an engine that executes every statement the call returns
    [True], the table gets one more row for the pair at its end,
    [get_product_quantity] goes on returning the old quantity, and the pair no
    longer has a single row. *)
Theorem recount_of_nonpositive_row_is_shadowed E p l q counted_at c r :
  pending c = None ->
  (forall t s, raises E t s = false) ->
  find (at_pair p l) (inventory (durable c)) = Some r ->
  i_quantity r <= 0 ->
  exists c',
    update_inventory_quantity E p l q counted_at c = (inr true, c')
    /\ inventory (durable c')
       = (inventory (durable c)
            ++ [mkInventoryRow
                  (next_rowid (map inventory_id (inventory (durable c))))
                  p l q (Some (default (now E) counted_at)) None])%list
    /\ get_product_quantity E p l c' = (inr (i_quantity r), c')
    /\ ~ unique_pairs (inventory (durable c')).
Proof.
  intros Hp Hq Hr Hle.
  rewrite (update_inventory_quantity_run E p l q counted_at c Hp).
  cbv zeta. rewrite !Hq.
  assert (Hst : stock_level (durable c) p l = i_quantity r)
    by (unfold stock_level; rewrite Hr; reflexivity).
  assert (Hlt : (0 <? stock_level (durable c) p l) = false)
    by (apply Z.ltb_ge; lia).
  rewrite Hlt. eexists. split; [reflexivity |]. split; [reflexivity |]. split.
  - rewrite get_product_quantity_run, Hq. unfold view. cbn [pending durable].
    rewrite stock_level_insert_counted, Hr. reflexivity.
  - intros Hu. specialize (Hu p l). simpl in Hu.
    rewrite List.filter_app, length_app in Hu. simpl in Hu.
    unfold at_pair at 2 in Hu. simpl in Hu. rewrite !Z.eqb_refl in Hu.
    simpl in Hu.
    apply find_some in Hr as [Hin Hat].
    assert (Hin' : In r (List.filter (at_pair p l) (inventory (durable c))))
      by (apply filter_In; tauto).
    destruct (List.filter (at_pair p l) (inventory (durable c)));
      [destruct Hin' | simpl in Hu; lia].
Qed.

(** The recount of [sold_out]. *)
Lemma recount_of_nonpositive_row_is_shadowed_witness :
  exists c',
    update_inventory_quantity permissive 1 1 5 None sold_out = (inr true, c')
    /\ inventory (durable c')
       = (inventory (durable sold_out)
            ++ [mkInventoryRow
                  (next_rowid
                     (map inventory_id (inventory (durable sold_out))))
                  1 1 5 (Some (default (now permissive) None)) None])%list
    /\ get_product_quantity permissive 1 1 c'
       = (inr (i_quantity
                 (mkInventoryRow 1 1 1 0 None (Some "2024-03-01 14:00:00"))),
          c')
    /\ ~ unique_pairs (inventory (durable c')).
Proof.
  apply (recount_of_nonpositive_row_is_shadowed permissive 1 1 5 None
           sold_out).
  - reflexivity.
  - reflexivity.
  - reflexivity.
  - simpl. lia.
Defined.

Lemma filter_other_pair_update_counted E q d p l p' l' t :
  (p =? p') && (l =? l') = false ->
  List.filter (at_pair p' l')
    (inventory (snd (update_inventory_counted E q d p l t)))
  = List.filter (at_pair p' l') (inventory t).
Proof.
  intros Hne. unfold update_inventory_counted. simpl.
  apply filter_map_keeping. intros x Hx.
  split; apply (at_pair_other _ _ _ _ _ Hne Hx).
Qed.

Lemma filter_other_pair_insert_counted q d p l p' l' t :
  (p =? p') && (l =? l') = false ->
  List.filter (at_pair p' l')
    (inventory (snd (insert_inventory_counted p l q d t)))
  = List.filter (at_pair p' l') (inventory t).
Proof.
  intros Hne. unfold insert_inventory_counted. simpl.
  rewrite List.filter_app. simpl. unfold at_pair at 2. simpl.
  rewrite Hne. apply app_nil_r.
Qed.

(** X4. Whatever the engine does, a recount started without an open
    transaction leaves none open, never touches the ledger, the registry or
    the master data, and never changes the rows of another pair; when it
    raises, the connection is exactly as before, and when it returns, it
    returns [True]. *)
Theorem recount_frame E p l q counted_at c :
  pending c = None ->
  let '(res, c') := update_inventory_quantity E p l q counted_at c in
  pending c' = None
  /\ inventory_transactions (durable c') = inventory_transactions (durable c)
  /\ transaction_types (durable c') = transaction_types (durable c)
  /\ products (durable c') = products (durable c)
  /\ locations (durable c') = locations (durable c)
  /\ (forall p' l',
        (p =? p') && (l =? l') = false ->
        List.filter (at_pair p' l') (inventory (durable c'))
        = List.filter (at_pair p' l') (inventory (durable c)))
  /\ match res with
     | inl _ => c' = c
     | inr b => b = true
     end.
Proof.
  intros Hp.
  rewrite (update_inventory_quantity_run E p l q counted_at c Hp).
  cbv zeta.
  repeat match goal with
         | |- context [if ?b then _ else _] => destruct b
         end;
    repeat split; try assumption; try reflexivity; intros p' l' Hne.
  - apply filter_other_pair_update_counted. exact Hne.
  - apply filter_other_pair_insert_counted. exact Hne.
Qed.

(** The engine with the key refuses the recount of [sold_out]. *)
Lemma recount_frame_witness :
  let '(res, c') :=
    update_inventory_quantity unique_pair 1 1 5 None sold_out in
  pending c' = None
  /\ inventory_transactions (durable c')
     = inventory_transactions (durable sold_out)
  /\ transaction_types (durable c') = transaction_types (durable sold_out)
  /\ products (durable c') = products (durable sold_out)
  /\ locations (durable c') = locations (durable sold_out)
  /\ (forall p' l',
        (1 =? p') && (1 =? l') = false ->
        List.filter (at_pair p' l') (inventory (durable c'))
        = List.filter (at_pair p' l') (inventory (durable sold_out)))
  /\ match res with
     | inl _ => c' = sold_out
     | inr b => b = true
     end.
Proof.
  apply (recount_frame unique_pair 1 1 5 None sold_out). reflexivity.
Defined.

(** X5. Two recounts of a pair that had no row, with engines that execute
    every statement: both return [True], and afterwards
    [get_product_quantity] returns the second quantity if the first was
    positive, and the first quantity otherwise. *)
Theorem recount_twice E1 E2 p l q1 q2 d1 d2 c :
  pending c = None ->
  (forall t s, raises E1 t s = false) ->
  (forall t s, raises E2 t s = false) ->
  (forall r, In r (inventory (durable c)) -> at_pair p l r = false) ->
  exists c1 c2,
    update_inventory_quantity E1 p l q1 d1 c = (inr true, c1)
    /\ update_inventory_quantity E2 p l q2 d2 c1 = (inr true, c2)
    /\ get_product_quantity E2 p l c2
       = (inr (if 0 <? q1 then q2 else q1), c2).
Proof.
  intros Hp H1 H2 Hno.
  set (t1 := snd (insert_inventory_counted p l q1 (default (now E1) d1)
                    (durable c))).
  assert (Hnew : find (at_pair p l) (inventory t1)
          = Some (mkInventoryRow
                    (next_rowid (map inventory_id (inventory (durable c))))
                    p l q1 (Some (default (now E1) d1)) None)).
  { unfold t1, insert_inventory_counted. simpl. rewrite find_snoc.
    rewrite (find_none_no_row _ _ Hno). unfold at_pair. simpl.
    rewrite !Z.eqb_refl. reflexivity. }
  assert (Hst1 : stock_level t1 p l = q1)
    by (unfold stock_level; rewrite Hnew; reflexivity).
  assert (Hfirst : update_inventory_quantity E1 p l q1 d1 c
                   = (inr true, mkConnection t1 None)).
  { rewrite (update_inventory_quantity_run E1 p l q1 d1 c Hp).
    cbv zeta. rewrite !H1, (stock_level_no_row _ _ _ Hno), Z.ltb_irrefl.
    reflexivity. }
  exists (mkConnection t1 None).
  destruct (0 <? q1) eqn:Hq1.
  - exists (mkConnection
              (snd (update_inventory_counted E2 q2 (default (now E2) d2) p l
                      t1)) None).
    split; [exact Hfirst |]. split.
    + rewrite update_inventory_quantity_run by reflexivity.
      cbv zeta. cbn [durable]. rewrite !H2, Hst1, Hq1. reflexivity.
    + rewrite get_product_quantity_run, H2. unfold view.
      cbn [pending durable].
      rewrite stock_level_update_counted, Hnew. reflexivity.
  - exists (mkConnection
              (snd (insert_inventory_counted p l q2 (default (now E2) d2)
                      t1)) None).
    split; [exact Hfirst |]. split.
    + rewrite update_inventory_quantity_run by reflexivity.
      cbv zeta. cbn [durable]. rewrite !H2, Hst1, Hq1. reflexivity.
    + rewrite get_product_quantity_run, H2. unfold view.
      cbn [pending durable].
      rewrite stock_level_insert_counted, Hnew. reflexivity.
Qed.

(** A recount to 0 and then to 4 of location 2 on the fresh store reads 0. *)
Lemma recount_twice_witness :
  exists c1 c2,
    update_inventory_quantity permissive 1 2 0 None fresh = (inr true, c1)
    /\ update_inventory_quantity permissive 1 2 4 None c1 = (inr true, c2)
    /\ get_product_quantity permissive 1 2 c2
       = (inr (if 0 <? 0 then 4 else 0), c2).
Proof.
  apply (recount_twice permissive permissive 1 2 0 4 None None fresh).
  - reflexivity.
  - reflexivity.
  - reflexivity.
  - simpl. tauto.
Defined.

Lemma existsb_find_none {A} (P : A -> bool) (rows : list A) :
  existsb P rows = false -> find P rows = None.
Proof.
  induction rows as [| x rows IH]; simpl; [reflexivity |].
  destruct (P x); simpl; [discriminate | exact IH].
Qed.

(** X6. Where the engine enforces the key of [inventory] (it refuses to
    insert a pair that has a row), a recount keeps the key in every outcome:
    a store with at most one row per pair has at most one row per pair
    afterwards. *)
Theorem recount_keeps_key E p l q counted_at c :
  enforces_unique_pair E ->
  pending c = None ->
  unique_pairs (inventory (durable c)) ->
  unique_pairs
    (inventory (durable (snd (update_inventory_quantity E p l q counted_at c)))).
Proof.
  intros Hkey Hp Hu.
  rewrite (update_inventory_quantity_run E p l q counted_at c Hp).
  cbv zeta.
  destruct (raises E (durable c) (SELECT_quantity p l)); [exact Hu |].
  destruct (0 <? stock_level (durable c) p l).
  - destruct (raises E (durable c) (UPDATE_inventory_counted _ _ _ _));
      [exact Hu |].
    destruct (raises E _ COMMIT); [exact Hu |].
    intros p' l'. cbn [snd durable]. unfold update_inventory_counted.
    cbn [snd inventory set_inventory].
    rewrite filter_length_map; [apply Hu |].
    intros x. destruct (at_pair p l x) eqn:Hx; reflexivity.
  - destruct (raises E (durable c) (INSERT_inventory_counted _ _ _ _))
      eqn:Hins; [exact Hu |].
    destruct (raises E _ COMMIT); [exact Hu |].
    assert (Hnone : find (at_pair p l) (inventory (durable c)) = None).
    { apply existsb_find_none.
      destruct (existsb (at_pair p l) (inventory (durable c))) eqn:Hex;
        [| reflexivity].
      rewrite (Hkey _ _ _ _ _ Hex) in Hins. discriminate. }
    intros p' l'. cbn [snd durable]. unfold insert_inventory_counted.
    cbn [snd inventory set_inventory].
    rewrite List.filter_app, length_app. simpl.
    destruct (at_pair p' l' _) eqn:Hnew; simpl.
    + apply at_pair_true in Hnew as [<- <-]. simpl.
      rewrite (filter_empty_find_none _ _ Hnone). simpl. lia.
    + pose proof (Hu p' l'). lia.
Qed.

(** The engine with the key, on [sold_out]. *)
Lemma recount_keeps_key_witness :
  unique_pairs
    (inventory
       (durable
          (snd (update_inventory_quantity unique_pair 1 1 5 None sold_out)))).
Proof.
  apply (recount_keeps_key unique_pair 1 1 5 None sold_out).
  - intros t p l q d Hex. exact Hex.
  - reflexivity.
  - intros p l. unfold at_pair. cbn -[Z.eqb].
    destruct ((1 =? p) && (1 =? l)); simpl; lia.
Defined.

(** ** The ledger and its projection, call after call *)

Lemma sum_app (xs ys : list Z) :
  fold_right Z.add 0 (xs ++ ys)
  = fold_right Z.add 0 xs + fold_right Z.add 0 ys.
Proof. induction xs as [| x xs IH]; simpl; lia. Qed.

Lemma ledger_projection_snoc types p l rows r :
  ledger_projection types p l (rows ++ [r])
  = ledger_projection types p l rows
    + (if (t_product_id r =? p) && (t_location_id r =? l)
       then t_quantity r * effect_of types (t_transaction_type_id r)
       else 0).
Proof.
  unfold ledger_projection. rewrite List.filter_app, map_app, sum_app. simpl.
  destruct ((t_product_id r =? p) && (t_location_id r =? l)); simpl; lia.
Qed.

(** What a call leaves behind, whether it returned or raised. *)
Lemma record_transaction_outcome E tx c :
  let '(r, (c', tx')) := record_transaction E tx c in
  match r with
  | inl _ => c' = mkConnection (durable c) None
  | inr id =>
      pending c = None /\ pending c' = None
      /\ recorded E tx (durable c) id (durable c') tx'
  end.
Proof.
  destruct (record_transaction E tx c) as [[e | id] [c' tx']] eqn:Hcall.
  - exact (record_transaction_inl _ _ _ _ _ _ Hcall).
  - exact (record_transaction_inr _ _ _ _ _ _ Hcall).
Qed.

(** X7. [record_transaction] keeps the ledger and its projection in step,
    whatever its outcome: if before the call every stock level is the sum,
    over the ledger entries of its pair, of [quantity * affects_inventory],
    then so it is after the call. *)
Theorem record_transaction_keeps_projection E tx c :
  projection_consistent (durable c) ->
  projection_consistent (durable (fst (snd (record_transaction E tx c)))).
Proof.
  intros Hc. pose proof (record_transaction_outcome E tx c) as Hout.
  destruct (record_transaction E tx c) as [[e | id] [c' tx']]; simpl.
  - subst c'. exact Hc.
  - destruct Hout as (_ & _ & Hrec). intros p l.
    rewrite (recorded_stock_level _ _ _ _ _ _ p l Hrec), (Hc p l).
    destruct Hrec as (row & _ & _ & _ & _ & _ & Hty & Hled & _).
    rewrite Hty, Hled, ledger_projection_snoc. reflexivity.
Qed.

(** A sale on [three_days], whose two stock levels are the projection of its
    three ledger entries. *)
Lemma record_transaction_keeps_projection_witness :
  projection_consistent
    (durable
       (fst (snd (record_transaction permissive (a_transaction 2 2 1 None)
                    three_days)))).
Proof.
  apply (record_transaction_keeps_projection permissive
           (a_transaction 2 2 1 None) three_days).
  intros p l. unfold stock_level, ledger_projection, at_pair.
  cbn -[Z.eqb Z.add Z.mul effect_of].
  destruct (Z.eqb_spec 1 p); destruct (Z.eqb_spec 1 l);
    destruct (Z.eqb_spec 2 l); try lia; reflexivity.
Defined.

(** X8. In every outcome [record_transaction] leaves no transaction open and
    leaves the products, the locations and the registry of transaction types
    as they were, and the ledger it leaves starts with the ledger it found:
    no entry is removed or rewritten. *)
Theorem record_transaction_keeps_history E tx c :
  let '(r, (c', tx')) := record_transaction E tx c in
  pending c' = None
  /\ products (durable c') = products (durable c)
  /\ locations (durable c') = locations (durable c)
  /\ transaction_types (durable c') = transaction_types (durable c)
  /\ exists new,
       inventory_transactions (durable c')
       = (inventory_transactions (durable c) ++ new)%list
       /\ match r with
          | inl _ => new = []
          | inr _ => length new = 1%nat
          end.
Proof.
  pose proof (record_transaction_outcome E tx c) as Hout.
  destruct (record_transaction E tx c) as [[e | id] [c' tx']].
  - subst c'. simpl. repeat split. exists []. rewrite app_nil_r. auto.
  - destruct Hout as (_ & Hp' & row & _ & _ & _ & Hpr & Hlo & Hty & Hled & _).
    repeat split; try assumption. eexists. split; [exact Hled | reflexivity].
Qed.

Lemma next_rowid_above (ids : list Z) (x : Z) :
  In x ids -> x < next_rowid ids.
Proof.
  unfold next_rowid. induction ids as [| y ids IH]; simpl; [tauto |].
  intros [-> | Hin]; [lia |]. specialize (IH Hin). lia.
Qed.

(** X9. The ledger after a run of calls that all returned is the ledger
    before followed by one entry per call, in the order of the calls, each
    with the product, location, type and quantity of its call (and its date,
    when the call gave one); the identifiers of the new entries increase
    strictly and exceed every identifier that was in the ledger. *)
Theorem successive_ledger c txs c' :
  successive c txs c' ->
  exists rows,
    inventory_transactions (durable c')
    = (inventory_transactions (durable c) ++ rows)%list
    /\ Forall2
         (fun tx row =>
            t_product_id row = product_id tx
            /\ t_location_id row = location_id tx
            /\ t_transaction_type_id row = transaction_type_id tx
            /\ t_quantity row = quantity tx
            /\ forall d, transaction_date tx = Some d ->
                         t_transaction_date row = d)
         txs rows
    /\ StronglySorted Z.lt (map t_transaction_id rows)
    /\ Forall
         (fun row =>
            Forall (fun old => t_transaction_id old < t_transaction_id row)
              (inventory_transactions (durable c)))
         rows.
Proof.
  induction 1 as [c | E tx id tx' c c1 txs c2 Hcall Hrest IH].
  - exists []. rewrite app_nil_r. repeat split; constructor.
  - apply record_transaction_inr in Hcall as (_ & _ & Hrec).
    destruct Hrec as (row & _ & _ & Hid & _ & _ & _ & Hled & _).
    destruct IH as (rows & Hrows & Hfields & Hsorted & Habove).
    set (date := default (now E) (transaction_date tx)) in *.
    exists (ledger_row_of id tx date :: rows).
    rewrite Hrows, Hled, <- app_assoc. split; [reflexivity |].
    rewrite Hled in Habove.
    split; [| split].
    + constructor; [| exact Hfields].
      repeat split. intros d Hd. unfold date. rewrite Hd. reflexivity.
    + simpl. constructor; [exact Hsorted |].
      apply Forall_map. eapply Forall_impl; [exact Habove |].
      intros r Hr. simpl in Hr. apply Forall_app in Hr as [_ Hr].
      inversion Hr; subst. assumption.
    + constructor.
      * apply Forall_forall. intros old Hold. simpl. rewrite Hid.
        apply next_rowid_above. apply in_map. apply list_elem_of_In.
        exact Hold.
      * eapply Forall_impl; [exact Habove |].
        intros r Hr. simpl in Hr. apply Forall_app in Hr as [Hr _].
        exact Hr.
Qed.

(** Two calls on [three_days]. *)
Lemma successive_ledger_witness :
  exists rows,
    inventory_transactions
      (durable
         (mkConnection
            (mkTables (products fresh_tables) (locations fresh_tables)
               builtin_types
               (inventory_transactions (durable three_days)
                  ++ [mkLedgerRow 4 1 1 2 2 "2024-03-01 09:00:00" None None
                        (Some "System");
                      mkLedgerRow 5 1 2 1 4 "2024-02-02" None None
                        (Some "System")])
               [mkInventoryRow 1 1 1 5 None (Some "2024-03-01 14:00:00");
                mkInventoryRow 2 1 2 7 None (Some "2024-03-01 14:00:00")])
            None))
    = (inventory_transactions (durable three_days) ++ rows)%list
    /\ Forall2
         (fun tx row =>
            t_product_id row = product_id tx
            /\ t_location_id row = location_id tx
            /\ t_transaction_type_id row = transaction_type_id tx
            /\ t_quantity row = quantity tx
            /\ forall d, transaction_date tx = Some d ->
                         t_transaction_date row = d)
         [a_transaction 2 2 1 None; a_transaction 1 4 2 (Some "2024-02-02")]
         rows
    /\ StronglySorted Z.lt (map t_transaction_id rows)
    /\ Forall
         (fun row =>
            Forall (fun old => t_transaction_id old < t_transaction_id row)
              (inventory_transactions (durable three_days)))
         rows.
Proof.
  apply (successive_ledger three_days
           [a_transaction 2 2 1 None; a_transaction 1 4 2 (Some "2024-02-02")]).
  eapply (successive_cons permissive); [vm_compute; reflexivity |].
  eapply (successive_cons permissive); [vm_compute; reflexivity |].
  apply successive_nil.
Defined.

(** X10. From any store, a run of calls that all returned moves what
    [get_product_quantity] returns for a pair by the sum, over the calls that
    touch the pair, of [quantity * affects_inventory]: whatever the level was
    (a recount included), the calls add to it. *)
Theorem run_adds_fold_of_calls c txs c' Eb Ea p l q :
  successive c txs c' ->
  get_product_quantity Eb p l c = (inr q, c) ->
  raises Ea (view c') (SELECT_quantity p l) = false ->
  get_product_quantity Ea p l c'
  = (inr (q + ledger_fold (transaction_types (durable c)) p l txs), c').
Proof.
  intros Hrun Hb Ha.
  rewrite get_product_quantity_run in Hb.
  destruct (raises Eb (view c) (SELECT_quantity p l)); [discriminate |].
  injection Hb as Hb.
  rewrite get_product_quantity_run, Ha. subst q.
  destruct Hrun as [c | E tx id tx' c c1 txs c2 Hcall Hrest].
  - unfold ledger_fold. simpl. rewrite Z.add_0_r. reflexivity.
  - pose proof (record_transaction_inr _ _ _ _ _ _ Hcall) as (Hp & _ & _).
    destruct (successive_stock_level c (tx :: txs) c2
                (successive_cons _ _ _ _ _ _ _ _ Hcall Hrest) Hp)
      as (Hp2 & _ & Hst).
    unfold view. rewrite Hp, Hp2, Hst. reflexivity.
Qed.

(** A sale of 2 at location 1 of [three_days], where 7 are in stock. *)
Lemma run_adds_fold_of_calls_witness :
  get_product_quantity permissive 1 1
    (mkConnection
       (mkTables (products fresh_tables) (locations fresh_tables)
          builtin_types
          (inventory_transactions (durable three_days)
             ++ [mkLedgerRow 4 1 1 2 2 "2024-03-01 09:00:00" None None
                   (Some "System")])
          [mkInventoryRow 1 1 1 5 None (Some "2024-03-01 14:00:00");
           mkInventoryRow 2 1 2 3 None None])
       None)
  = (inr (7 + ledger_fold (transaction_types (durable three_days)) 1 1
                [a_transaction 2 2 1 None]),
     mkConnection
       (mkTables (products fresh_tables) (locations fresh_tables)
          builtin_types
          (inventory_transactions (durable three_days)
             ++ [mkLedgerRow 4 1 1 2 2 "2024-03-01 09:00:00" None None
                   (Some "System")])
          [mkInventoryRow 1 1 1 5 None (Some "2024-03-01 14:00:00");
           mkInventoryRow 2 1 2 3 None None])
       None).
Proof.
  apply (run_adds_fold_of_calls three_days [a_transaction 2 2 1 None] _
           permissive permissive 1 1 7).
  - eapply (successive_cons permissive); [vm_compute; reflexivity |].
    apply successive_nil.
  - vm_compute. reflexivity.
  - reflexivity.
Defined.

(** ** The history after a call *)

Lemma omap_length_le {A B} (f : A -> option B) (xs : list A) :
  (length (omap f xs) <= length xs)%nat.
Proof.
  induction xs as [| x xs IH]; [simpl; lia |].
  change (omap f (x :: xs))
    with (match f x with Some y => y :: omap f xs | None => omap f xs end).
  destruct (f x); simpl length; lia.
Qed.

Lemma filter_length_le {A} (f : A -> bool) (xs : list A) :
  (length (List.filter f xs) <= length xs)%nat.
Proof.
  induction xs as [| x xs IH]; simpl; [lia |].
  destruct (f x); simpl; lia.
Qed.

Lemma filter_all_false {A} (f : A -> bool) (xs : list A) :
  (forall x, f x = false) -> List.filter f xs = [].
Proof.
  intros Hf. induction xs as [| x xs IH]; simpl; [reflexivity |].
  rewrite Hf. exact IH.
Qed.

(** X11. A transaction that was recorded is in the history: after a call
    that returned [id] for a candidate whose product and location are in the
    master data, [get_transaction_history], with any filters the new entry
    passes and a limit that is negative or not below the size of the ledger,
    returns a list that holds the entry with that id, the fields of the
    candidate, its date and the names of its product and location. *)
Theorem recorded_transaction_is_in_history E Eh tx c id c' tx' prod loc row
    pf lf sd ed lim :
  record_transaction E tx c = (inr id, (c', tx')) ->
  products (durable c) !! product_id tx = Some prod ->
  locations (durable c) !! location_id tx = Some loc ->
  transaction_types (durable c) !! transaction_type_id tx = Some row ->
  history_where pf lf sd ed
    (mkHistoryRow
       (ledger_row_of id tx (default (now E) (transaction_date tx)))
       (p_name prod) (p_sku prod) loc (tt_name row)) = true ->
  (lim < 0
   \/ Z.of_nat (length (inventory_transactions (durable c'))) <= lim) ->
  raises Eh (view c') (SELECT_history pf lf sd ed lim) = false ->
  exists rows,
    get_transaction_history Eh pf lf sd ed (Some lim) c' = (inr rows, c')
    /\ In (mkHistoryRow
             (ledger_row_of id tx (default (now E) (transaction_date tx)))
             (p_name prod) (p_sku prod) loc (tt_name row))
          rows.
Proof.
  intros Hcall Hprod Hloc Hrow Hwhere Hlim Hq.
  apply record_transaction_inr in Hcall as (_ & Hp' & Hrec).
  destruct Hrec as (row' & _ & _ & _ & Hpr & Hlo & Hty & Hled & _).
  set (h := mkHistoryRow _ _ _ _ _) in *.
  assert (Hv : view c' = durable c')
    by (unfold view; rewrite Hp'; reflexivity).
  rewrite Hv in *.
  exists (select_history pf lf sd ed lim (durable c')). split.
  - unfold get_transaction_history, execute_query, try_except, execute_select.
    simpl. rewrite Hv, Hq. reflexivity.
  - assert (Hjoin : join_names (durable c')
                      (ledger_row_of id tx
                         (default (now E) (transaction_date tx)))
                    = Some h).
    { unfold join_names. simpl. rewrite Hpr, Hlo, Hty, Hprod, Hloc, Hrow.
      reflexivity. }
    assert (Hin : In h (matching_history pf lf sd ed (durable c'))).
    { unfold matching_history. apply filter_In. split; [| exact Hwhere].
      apply list_elem_of_In, list_elem_of_omap.
      exists (ledger_row_of id tx (default (now E) (transaction_date tx))).
      split; [| exact Hjoin].
      rewrite Hled. apply list_elem_of_In, in_or_app. right. left.
      reflexivity. }
    assert (Hsorted : In h (merge_sort date_desc
                              (matching_history pf lf sd ed (durable c')))).
    { apply (Permutation_in h
               (Permutation_sym
                  (merge_sort_Permutation date_desc
                     (matching_history pf lf sd ed (durable c'))))).
      exact Hin. }
    unfold select_history, sql_limit.
    fold (matching_history pf lf sd ed (durable c')).
    destruct (Z.ltb_spec lim 0) as [Hneg | Hnn]; [exact Hsorted |].
    destruct Hlim as [Hlim | Hlim]; [lia |].
    rewrite take_ge; [exact Hsorted |].
    rewrite (Permutation_length
               (merge_sort_Permutation date_desc
                  (matching_history pf lf sd ed (durable c')))).
    unfold matching_history.
    pose proof (filter_length_le (history_where pf lf sd ed)
                  (omap (join_names (durable c'))
                     (inventory_transactions (durable c')))).
    pose proof (omap_length_le (join_names (durable c'))
                  (inventory_transactions (durable c'))).
    lia.
Qed.

(** A sale on [three_days], looked up by product and location. *)
Lemma recorded_transaction_is_in_history_witness :
  exists rows,
    get_transaction_history permissive (Some 1) (Some 1) None None (Some (-1))
      (mkConnection
         (mkTables (products fresh_tables) (locations fresh_tables)
            builtin_types
            (inventory_transactions (durable three_days)
               ++ [mkLedgerRow 4 1 1 2 2 "2024-03-01 09:00:00" None None
                     (Some "System")])
            [mkInventoryRow 1 1 1 5 None (Some "2024-03-01 14:00:00");
             mkInventoryRow 2 1 2 3 None None])
         None)
    = (inr rows,
       mkConnection
         (mkTables (products fresh_tables) (locations fresh_tables)
            builtin_types
            (inventory_transactions (durable three_days)
               ++ [mkLedgerRow 4 1 1 2 2 "2024-03-01 09:00:00" None None
                     (Some "System")])
            [mkInventoryRow 1 1 1 5 None (Some "2024-03-01 14:00:00");
             mkInventoryRow 2 1 2 3 None None])
         None)
    /\ In (mkHistoryRow
             (ledger_row_of 4 (a_transaction 2 2 1 None)
                (default (now permissive) None))
             "Laptop Computer" "TECH-001" "Main Warehouse" "Sale")
          rows.
Proof.
  apply (recorded_transaction_is_in_history permissive permissive
           (a_transaction 2 2 1 None) three_days 4 _
           (with_date (a_transaction 2 2 1 None) (now permissive))
           (mkProductRow "Laptop Computer" "TECH-001") "Main Warehouse"
           (mkTransactionTypeRow "Sale" (-1))
           (Some 1) (Some 1) None None (-1)).
  - vm_compute. reflexivity.
  - vm_compute. reflexivity.
  - vm_compute. reflexivity.
  - vm_compute. reflexivity.
  - vm_compute. reflexivity.
  - left. lia.
  - reflexivity.
Defined.

Lemma string_ltb_not_leb (a b : string) :
  (a <? b)%string = true -> (b <=? a)%string = false.
Proof.
  unfold String.ltb, String.leb. rewrite (String.compare_antisym b a).
  destruct (a ?= b)%string; simpl; congruence.
Qed.

(** X12. Two ways to ask for nothing: with a limit of 0, or with a date range
    whose end is before its start (as text), [get_transaction_history]
    returns the empty list, whatever the ledger holds. *)
Theorem history_empty_requests E pf lf sd ed lim c :
  raises E (view c) (SELECT_history pf lf sd ed (default 100 lim)) = false ->
  (lim = Some 0
   \/ exists s e, sd = Some s /\ ed = Some e /\ (e <? s)%string = true) ->
  get_transaction_history E pf lf sd ed lim c = (inr [], c).
Proof.
  intros Hq Hcase.
  unfold get_transaction_history, execute_query, try_except, execute_select.
  rewrite Hq. f_equal. f_equal. unfold select_history.
  destruct Hcase as [-> | (s & e & -> & -> & Hinv)].
  - reflexivity.
  - rewrite filter_all_false.
    + unfold sql_limit. destruct (default 100 lim <? 0); [reflexivity |].
      apply take_nil.
    + intros h. unfold history_where.
      destruct (s <=? t_transaction_date (h_entry h))%string eqn:H1;
        [| rewrite andb_false_r; reflexivity].
      destruct (t_transaction_date (h_entry h) <=? e)%string eqn:H2;
        [| apply andb_false_r].
      pose proof (string_leb_trans _ _ _ H1 H2) as H3.
      rewrite (string_ltb_not_leb _ _ Hinv) in H3. discriminate.
Qed.

(** An inverted range on [three_days]. *)
Lemma history_empty_requests_witness :
  get_transaction_history permissive None None (Some "2024-01-05")
    (Some "2024-01-02") None three_days
  = (inr [], three_days).
Proof.
  apply (history_empty_requests permissive None None (Some "2024-01-05")
           (Some "2024-01-02") None three_days).
  - reflexivity.
  - right. exists "2024-01-05"%string, "2024-01-02"%string.
    split; [reflexivity | split; reflexivity].
Defined.

(** ** The current-levels report *)

Lemma string_compare_refl (a : string) : (a ?= a)%string = Eq.
Proof. apply String_as_OT.cmp_eq. reflexivity. Qed.

Lemma string_compare_lt_trans (a b c : string) :
  (a ?= b)%string = Lt -> (b ?= c)%string = Lt -> (a ?= c)%string = Lt.
Proof.
  intros Hab Hbc. apply String_as_OT.cmp_lt in Hab, Hbc.
  pose proof (String_as_OT.lt_trans _ _ _ Hab Hbc) as Hac.
  apply String_as_OT.cmp_lt in Hac. exact Hac.
Qed.

Lemma name_order_total : Total name_order.
Proof.
  intros x y. unfold name_order.
  rewrite (String.compare_antisym (lv_product_name y) (lv_product_name x)).
  destruct (lv_product_name x ?= lv_product_name y)%string; simpl; auto.
  apply String.leb_total.
Qed.

Lemma name_order_trans : Transitive name_order.
Proof.
  intros x y z. unfold name_order.
  destruct (lv_product_name x ?= lv_product_name y)%string eqn:Hxy;
    [| | discriminate];
    (destruct (lv_product_name y ?= lv_product_name z)%string eqn:Hyz;
     [| | discriminate]).
  - apply String_as_OT.cmp_eq in Hxy, Hyz. rewrite Hxy, Hyz.
    rewrite string_compare_refl. apply string_leb_trans.
  - apply String_as_OT.cmp_eq in Hxy. rewrite Hxy, Hyz. auto.
  - apply String_as_OT.cmp_eq in Hyz. rewrite <- Hyz, Hxy. auto.
  - rewrite (string_compare_lt_trans _ _ _ Hxy Hyz). auto.
Qed.

(** X13. [get_inventory_levels] raises what the engine raises on its query;
    otherwise it returns, without changing the connection, a rearrangement of
    the stock-level rows that pass the filters and whose product and location
    are in the master data, each with the names and SKU joined in, ordered by
    product name and then location name (as text). *)
Theorem get_inventory_levels_spec refused p l c :
  match refused (view c) with
  | Some e => get_inventory_levels refused p l c = (inl e, c)
  | None =>
      exists rows,
        get_inventory_levels refused p l c = (inr rows, c)
        /\ rows ≡ₚ List.filter (levels_where p l)
                     (omap (join_level_names (view c)) (inventory (view c)))
        /\ StronglySorted name_order rows
        /\ forall v,
             In v rows ->
             exists r,
               In r (inventory (view c))
               /\ join_level_names (view c) r = Some v
               /\ levels_where p l v = true
  end.
Proof.
  unfold get_inventory_levels, execute_query_of, try_except, raise.
  destruct (refused (view c)) as [e |]; [reflexivity |].
  eexists. split; [reflexivity |]. unfold select_inventory_levels.
  split; [apply merge_sort_Permutation |]. split.
  - apply StronglySorted_merge_sort;
      [apply name_order_trans | apply name_order_total].
  - intros v Hin.
    apply (Permutation_in v (merge_sort_Permutation name_order _)) in Hin.
    apply filter_In in Hin as [Hjoin Hwhere].
    apply list_elem_of_In, list_elem_of_omap in Hjoin as (r & Hr & Hj).
    exists r. rewrite <- list_elem_of_In. auto.
Qed.

Lemma filter_singleton_unique {A} (P : A -> bool) (rows : list A) (r : A) :
  (length (List.filter P rows) <= 1)%nat ->
  In r rows -> P r = true -> List.filter P rows = [r].
Proof.
  intros Hlen Hin Hp.
  assert (Hin' : In r (List.filter P rows)) by (apply filter_In; tauto).
  destruct (List.filter P rows) as [| x [| y rest]]; simpl in *.
  - tauto.
  - destruct Hin' as [-> | []]. reflexivity.
  - lia.
Qed.

Lemma levels_filter_pair t p l rows :
  List.filter (levels_where (Some p) (Some l)) (omap (join_level_names t) rows)
  = omap (join_level_names t) (List.filter (at_pair p l) rows).
Proof.
  induction rows as [| r rows IH]; [reflexivity |].
  change (omap (join_level_names t) (r :: rows))
    with (match join_level_names t r with
          | Some v => v :: omap (join_level_names t) rows
          | None => omap (join_level_names t) rows
          end).
  simpl List.filter at 2.
  destruct (join_level_names t r) as [v |] eqn:Hj.
  - assert (Hv : levels_where (Some p) (Some l) v = at_pair p l r).
    { unfold join_level_names in Hj.
      destruct (products t !! i_product_id r); [| discriminate].
      destruct (locations t !! i_location_id r); [| discriminate].
      simpl in Hj. injection Hj as <-. reflexivity. }
    simpl. rewrite Hv. destruct (at_pair p l r).
    + change (omap (join_level_names t) (r :: List.filter (at_pair p l) rows))
        with (match join_level_names t r with
              | Some v => v :: omap (join_level_names t)
                                 (List.filter (at_pair p l) rows)
              | None => omap (join_level_names t)
                          (List.filter (at_pair p l) rows)
              end).
      rewrite Hj, IH. reflexivity.
    + exact IH.
  - destruct (at_pair p l r).
    + change (omap (join_level_names t) (r :: List.filter (at_pair p l) rows))
        with (match join_level_names t r with
              | Some v => v :: omap (join_level_names t)
                                 (List.filter (at_pair p l) rows)
              | None => omap (join_level_names t)
                          (List.filter (at_pair p l) rows)
              end).
      rewrite Hj. exact IH.
    + exact IH.
Qed.

(** X14. The report and the quantity query agree on a pair: in a store with
    at most one row per pair, when the pair has a row and its product and
    location are in the master data, [get_inventory_levels] filtered by the
    product and the location returns exactly that row with its names, and
    [get_product_quantity] returns the quantity of that row. *)
Theorem levels_agree_with_quantity refused E p l c r prod loc :
  unique_pairs (inventory (view c)) ->
  In r (inventory (view c)) ->
  at_pair p l r = true ->
  products (view c) !! p = Some prod ->
  locations (view c) !! l = Some loc ->
  refused (view c) = None ->
  raises E (view c) (SELECT_quantity p l) = false ->
  get_inventory_levels refused (Some p) (Some l) c
  = (inr [mkLevelRow r (p_name prod) (p_sku prod) loc], c)
  /\ get_product_quantity E p l c = (inr (i_quantity r), c).
Proof.
  intros Hu Hin Hat Hprod Hloc Href Hq. split.
  - unfold get_inventory_levels, execute_query_of, try_except, raise.
    rewrite Href. f_equal. f_equal. unfold select_inventory_levels.
    rewrite levels_filter_pair.
    rewrite (filter_singleton_unique _ _ r (Hu p l) Hin Hat).
    apply at_pair_true in Hat as [Hrp Hrl].
    assert (Hj : join_level_names (view c) r
                 = Some (mkLevelRow r (p_name prod) (p_sku prod) loc)).
    { unfold join_level_names. rewrite Hrp, Hrl, Hprod, Hloc. reflexivity. }
    change (omap (join_level_names (view c)) [r])
      with (match join_level_names (view c) r with
            | Some v => [v]
            | None => []
            end).
    rewrite Hj. reflexivity.
  - rewrite get_product_quantity_run, Hq.
    rewrite (stock_level_row _ _ _ _ Hu Hin Hat). reflexivity.
Qed.

(** Location 2 of [three_days]. *)
Lemma levels_agree_with_quantity_witness :
  get_inventory_levels (fun _ => None) (Some 1) (Some 2) three_days
  = (inr [mkLevelRow (mkInventoryRow 2 1 2 3 None None)
            (p_name (mkProductRow "Laptop Computer" "TECH-001"))
            (p_sku (mkProductRow "Laptop Computer" "TECH-001"))
            "Retail Store"],
     three_days)
  /\ get_product_quantity permissive 1 2 three_days
     = (inr (i_quantity (mkInventoryRow 2 1 2 3 None None)), three_days).
Proof.
  apply (levels_agree_with_quantity (fun _ => None) permissive 1 2 three_days
           (mkInventoryRow 2 1 2 3 None None)
           (mkProductRow "Laptop Computer" "TECH-001") "Retail Store").
  - intros p l. unfold at_pair. cbn -[Z.eqb].
    destruct (Z.eqb_spec 1 p); destruct (Z.eqb_spec 1 l);
      destruct (Z.eqb_spec 2 l); cbn; lia.
  - simpl. tauto.
  - reflexivity.
  - vm_compute. reflexivity.
  - vm_compute. reflexivity.
  - reflexivity.
  - reflexivity.
Defined.

(** X15. A stock level whose product, or whose location, is not in the master
    data is not reported: filtered by such a product (or such a location),
    [get_inventory_levels] returns the empty list, whatever rows [inventory]
    holds for it. *)
Theorem levels_skip_unknown_master_data refused pf lf c :
  refused (view c) = None ->
  (exists p, pf = Some p /\ products (view c) !! p = None)
  \/ (exists l, lf = Some l /\ locations (view c) !! l = None) ->
  get_inventory_levels refused pf lf c = (inr [], c).
Proof.
  intros Href Hcase.
  unfold get_inventory_levels, execute_query_of, try_except, raise.
  rewrite Href. f_equal. f_equal. unfold select_inventory_levels.
  assert (Hnone : List.filter (levels_where pf lf)
                    (omap (join_level_names (view c)) (inventory (view c)))
                  = []).
  { destruct (List.filter (levels_where pf lf)
                (omap (join_level_names (view c)) (inventory (view c))))
      as [| v rest] eqn:Hf; [reflexivity |].
    assert (Hin : In v (List.filter (levels_where pf lf)
                          (omap (join_level_names (view c))
                             (inventory (view c)))))
      by (rewrite Hf; left; reflexivity).
    apply filter_In in Hin as [Hjoin Hwhere].
    apply list_elem_of_In, list_elem_of_omap in Hjoin as (r & _ & Hj).
    unfold join_level_names in Hj.
    destruct (products (view c) !! i_product_id r) as [prod |] eqn:Hp;
      [| discriminate].
    destruct (locations (view c) !! i_location_id r) as [loc |] eqn:Hl;
      [| discriminate].
    simpl in Hj. injection Hj as <-.
    unfold levels_where in Hwhere. simpl in Hwhere.
    apply andb_true_iff in Hwhere as [Hw1 Hw2].
    destruct Hcase as [(p & -> & Hno) | (l & -> & Hno)].
    - apply Z.eqb_eq in Hw1. congruence.
    - apply Z.eqb_eq in Hw2. congruence. }
  rewrite Hnone. reflexivity.
Qed.

(** Product 7 of [orphan_level] has a row, which the quantity query reads,
    and no entry in [products]. *)
Lemma levels_skip_unknown_master_data_witness :
  get_inventory_levels (fun _ => None) (Some 7) None orphan_level
  = (inr [], orphan_level).
Proof.
  apply (levels_skip_unknown_master_data (fun _ => None) (Some 7) None
           orphan_level).
  - reflexivity.
  - left. exists 7. split; [reflexivity | vm_compute; reflexivity].
Defined.

Example orphan_level_quantity :
  get_product_quantity permissive 7 1 orphan_level = (inr 4, orphan_level).
Proof. vm_compute. reflexivity. Qed.

(** [execute_query] is [execute_query_of] at the engine's answer for the
    statement. *)
Lemma execute_query_is_execute_query_of {A} E s (rows : Tables -> A) c :
  execute_query E s rows c
  = execute_query_of
      (fun t => if raises E t s then Some (sqlite3_Error s) else None)
      rows c.
Proof.
  unfold execute_query, execute_query_of, try_except, execute_select, raise.
  destruct (raises E (view c) s); reflexivity.
Qed.

(** ** What the exception tells the caller *)

(** X16. When [record_transaction] raises the [ValueError] of the type check,
    it names the type of the candidate, the registry has no such type, and
    the connection and the caller's object are exactly as they were before
    the call. *)
Theorem value_error_means_unregistered E tx c k c' tx' :
  record_transaction E tx c = (inl (ValueError k), (c', tx')) ->
  k = transaction_type_id tx
  /\ transaction_types (durable c) !! k = None
  /\ c' = c /\ tx' = tx.
Proof.
  destruct c as [d p]. run_db. intros H.
  repeat (case_match; simplify_eq/=); auto.
Qed.

(** Type 99. *)
Lemma value_error_means_unregistered_witness :
  99 = transaction_type_id (a_transaction 99 5 1 None)
  /\ transaction_types (durable fresh) !! 99 = None
  /\ fresh = fresh /\ a_transaction 99 5 1 None = a_transaction 99 5 1 None.
Proof.
  apply (value_error_means_unregistered permissive (a_transaction 99 5 1 None)
           fresh 99 fresh (a_transaction 99 5 1 None)).
  vm_compute. reflexivity.
Defined.
